(** * HealthPass: signing, validation, registry decoding and fund recovery

    A shallow embedding of [src/HealthPass.py].  Python strings are
    represented by their UTF-8 bytes ([string]), byte strings by
    [list byte], integers by [Z], dictionaries by insertion-ordered
    association lists, and statements that print, query the node or submit
    transactions by a state-and-exception monad over a [World]. *)

From Stdlib Require Import ZArith QArith Lia Ascii String List.
From Stdlib.Strings Require Import Byte.
From stdpp Require Import base strings list gmap pretty.
Import ListNotations.

Local Set Warnings "-register-all".
Local Open Scope string_scope.
Local Open Scope list_scope.
Local Open Scope Z_scope.

(** ** Exceptions and results *)

Module Py.

(** The exception classes that the modelled code paths can raise.  The two
    last ones derive from [BaseException] only; [Exception] is the class
    itself, raised with a text. *)
Inductive exn : Type :=
| Exception (msg : string)
| FileNotFoundError (path : string)
| KeyError (key : string)
| NameError (name : string)
| IndexError
| TypeError
| ValueError (msg : string)
| JSONDecodeError
| AttributeError
| BadSignature
| TimeExhausted
| ConnectionError
| KeyboardInterrupt
| SystemExit.

(** [isinstance(e, Exception)]. *)
Definition is_Exception (e : exn) : bool :=
  match e with
  | KeyboardInterrupt | SystemExit => false
  | _ => true
  end.

Inductive result (A : Type) : Type :=
| Return (a : A)
| Raise (e : exn).
Arguments Return {A} a.
Arguments Raise {A} e.

Definition rbind {A B} (r : result A) (k : A -> result B) : result B :=
  match r with
  | Return a => k a
  | Raise e => Raise e
  end.

Definition returns {A} (r : result A) : Prop := exists a, r = Return a.

End Py.
Export Py.

(** ** Hexadecimal text: [HexBytes(...)] and [HexBytes.hex()] *)

Module Hex.

Definition digit (n : N) : ascii :=
  ascii_of_N (if (n <? 10)%N then 48 + n else 87 + n)%N.

(** [binascii.unhexlify] reads both letter cases. *)
Definition digit_value (c : ascii) : option N :=
  let n := N_of_ascii c in
  if ((48 <=? n) && (n <=? 57))%N then Some (n - 48)%N
  else if ((97 <=? n) && (n <=? 102))%N then Some (n - 87)%N
  else if ((65 <=? n) && (n <=? 70))%N then Some (n - 55)%N
  else None.

(** [bytes.hex()]: two lower-case digits per byte. *)
Fixpoint hexlify (bs : list byte) : string :=
  match bs with
  | [] => EmptyString
  | b :: bs' =>
      String (digit (Byte.to_N b / 16))
        (String (digit (Byte.to_N b mod 16)) (hexlify bs'))
  end.

(** [HexBytes.hex()] of hexbytes 0.x: the digits behind a [0x] prefix. *)
Definition hex (bs : list byte) : string :=
  String "0" (String "x" (hexlify bs)).

Definition byte_of_digits (h l : ascii) : option byte :=
  match digit_value h, digit_value l with
  | Some vh, Some vl => Byte.of_N (16 * vh + vl)
  | _, _ => None
  end.

(** [binascii.unhexlify]: [None] stands for [binascii.Error]. *)
Fixpoint unhexlify (s : string) : option (list byte) :=
  match s with
  | EmptyString => Some []
  | String _ EmptyString => None
  | String h (String l s') =>
      match byte_of_digits h l, unhexlify s' with
      | Some b, Some bs => Some (b :: bs)
      | _, _ => None
      end
  end.

Definition strip_0x (s : string) : string :=
  match s with
  | String "0" (String "x" r) => r
  | String "0" (String "X" r) => r
  | _ => s
  end.

(** [eth_utils.hexstr_to_bytes], which [HexBytes(str)] runs: drop the
    prefix, left-pad an odd number of digits, unhexlify. *)
Definition hexstr_to_bytes (hexstr : string) : result (list byte) :=
  let non_prefixed_hex := strip_0x hexstr in
  let padded_hex :=
    if Nat.odd (String.length hexstr) then String "0" non_prefixed_hex
    else non_prefixed_hex in
  match unhexlify padded_hex with
  | Some bs => Return bs
  | None => Raise (ValueError "Non-hexadecimal digit found")
  end.

End Hex.

(** ** Python values and dictionaries *)

(** Values that cross the untyped boundaries of the program: tuples
    returned by contract calls, decoded JSON, module globals.  [VObj]
    stands for an object the model does not look into. *)
Inductive value : Type :=
| VNone
| VBool (b : bool)
| VInt (n : Z)
| VStr (s : string)
| VBytes (bs : list byte)
| VList (vs : list value)
| VDict (kvs : list (string * value))
| VObj (tag : string).

Module Dict.

(** A [dict] with string keys, in insertion order. *)
Definition t (V : Type) : Type := list (string * V).

(** [d[k]] *)
Fixpoint get {V} (d : t V) (k : string) : result V :=
  match d with
  | [] => Raise (KeyError k)
  | (k', v) :: d' => if String.eqb k' k then Return v else get d' k
  end.

(** [d[k] = v]: an existing key keeps its position. *)
Fixpoint set {V} (d : t V) (k : string) (v : V) : t V :=
  match d with
  | [] => [(k, v)]
  | (k', v') :: d' =>
      if String.eqb k' k then (k', v) :: d' else (k', v') :: set d' k v
  end.

(** [dict(pairs)] *)
Definition of_pairs {V} (pairs : list (string * V)) : t V :=
  fold_left (fun d kv => set d (fst kv) (snd kv)) pairs [].

Definition keys {V} (d : t V) : list string := map fst d.

End Dict.

(** [zip(a, b)] stops at the shorter argument. *)
Fixpoint zip {A B} (a : list A) (b : list B) : list (A * B) :=
  match a, b with
  | x :: a', y :: b' => (x, y) :: zip a' b'
  | _, _ => []
  end.

(** ** The libraries behind the program *)

(** The line feed, written [\n] in the source. *)
Definition nl : string := String "010" EmptyString.

(** [eth_account.messages.SignableMessage] *)
Record SignableMessage : Type := {
  version : byte;
  header : list byte;
  body : list byte;
}.

(** [encode_defunct(text=data)]: the EIP-191 personal-message encoding,
    version byte [E] and the length of the body in decimal digits. *)
Definition encode_defunct (text : string) : SignableMessage :=
  let message_bytes := list_byte_of_string text in
  {| version := "E"%byte;
     header := list_byte_of_string
                 ("thereum Signed Message:" +:+ nl +:+
                  pretty (N.of_nat (List.length message_bytes)));
     body := message_bytes |}.

(** What the program takes from [eth_account]/[eth_keys], [json] and
    [decimal] without the model looking inside: key arithmetic on
    secp256k1, JSON text, and the rendering of a [Decimal]. *)
Class Externals : Type := {
  (** the scalar that the 32 bytes of a key spell lies between zero and
      the order of the group, both excluded *)
  key_in_range : list byte -> bool;
  (** [PrivateKey(key).public_key.to_checksum_address()] *)
  address_of_key : list byte -> string;
  (** the 65 bytes r, s, v of [sign_message(message, private_key=key)] *)
  ec_sign : SignableMessage -> list byte -> list byte;
  (** [recover_message(message, signature=bytes)], which raises on bytes
      that are no signature *)
  ec_recover : SignableMessage -> list byte -> result string;
  json_dumps : value -> string;
  json_loads : string -> result value;
  (** [str] of a [Decimal] or [float], [pprint.pformat] of a value *)
  decimal_str : Q -> string;
  pformat : value -> string;
}.

(** The property of the signature scheme that signing relies on: the
    address recovered from a signature made with a valid key is the
    address of that key. *)
Definition recovers_signer (E : Externals) : Prop :=
  forall (m : SignableMessage) (key : list byte),
    List.length key = 32%nat -> key_in_range key = true ->
    ec_recover m (ec_sign m key) = Return (address_of_key key).

(** [eth_account.signers.local.LocalAccount]: the key, and the address
    derived from it. *)
Record Account : Type := { privateKey : list byte }.

Definition address `{Externals} (a : Account) : string :=
  address_of_key (privateKey a).

(** The key of the account is 32 bytes that spell a scalar in range. *)
Definition valid_account `{Externals} (a : Account) : Prop :=
  List.length (privateKey a) = 32%nat /\ key_in_range (privateKey a) = true.

(** The key whose bytes are all zero. *)
Definition is_zero_key (key : list byte) : bool := forallb (Byte.eqb x00) key.

(** [Account.from_key(key)] on key bytes, which [privateKeyToAccount] and
    [Account.create] run.  Bytes of another length than 32 are refused
    with a [ValueError] (whose text ends, in the library, with the length
    of the argument as it was given; that ending is left out).  Of 32
    bytes, [eth_keys] derives the public key: a scalar at or above the
    order of the group is refused with a plain [Exception], the scalar
    zero is not refused, so that the all-zero key yields an account as the
    keys in range do. *)
Definition account_from_key `{Externals} (key : list byte) : result Account :=
  if negb (List.length key =? 32)%nat
  then Raise (ValueError "The private key must be exactly 32 bytes long")
  else if key_in_range key || is_zero_key key
  then Return {| privateKey := key |}
  else Raise (Exception "Invalid privkey").

(** [Account.privateKeyToAccount(private_key)] on hexadecimal text *)
Definition privateKeyToAccount `{Externals} (private_key : string)
  : result Account :=
  rbind (Hex.hexstr_to_bytes private_key) account_from_key.

(** [Account.recover_message(message, signature=signature)] with the
    signature given as hexadecimal text, as [sign_data] produces it. *)
Definition recover_message `{Externals} (message : SignableMessage)
    (signature : string) : result string :=
  rbind (Hex.hexstr_to_bytes signature) (ec_recover message).

(** Wei and ether.  A [Decimal] at the precision [eth_utils] sets (999
    digits) is exact on amounts below 2^256 wei, so ether amounts are
    rationals. *)
Definition MAX_WEI : Z := 2 ^ 256 - 1.
Definition ether : Z := 10 ^ 18.

(** [Web3.fromWei(number, 'ether')] *)
Definition fromWei (number : Z) : result Q :=
  if number =? 0 then Return (0 # 1)%Q
  else if (number <? 0) || (MAX_WEI <? number)
  then Raise (ValueError "value must be between 1 and 2**256 - 1")
  else Return (number # Z.to_pos ether)%Q.

(** [Web3.toWei(number, 'ether')]; [int(...)] truncates. *)
Definition toWei (number : Q) : result Z :=
  let result_value := (number * inject_Z ether)%Q in
  let wei := Z.quot (Qnum result_value) (Z.pos (Qden result_value)) in
  if Qeq_bool number 0 then Return 0
  else if Qle_bool 0 result_value && Qle_bool result_value (inject_Z MAX_WEI)
  then Return wei
  else Raise (ValueError
                "Resulting wei value must be between 1 and 2**256 - 1").

(** ** The world: console, node and ledger *)

(** The dictionary that [transfer_eth] hands to [send_transaction]; the two
    gas entries are present only when [transfer_eth] sets them. *)
Record Transaction : Type := {
  tx_from : string;
  tx_to : string;
  tx_value : Z;
  tx_chainId : Z;
  tx_nonce : Z;
  tx_gasPrice : option Z;
  tx_gas : option Z;
}.

(** What the program transacts with: the constructor of the contract,
    which deploys it, and the contract functions, each with the arguments
    it is applied to. *)
Inductive ContractCall : Type :=
| contract_constructor
| authorizeIssuer (issuer_name issuer_address : string)
| createHealthPassport (json_string passport_address : string)
                       (allow_only_signed : value)
| createCredential (json_string passport_address : string)
                   (extension : list byte).

(** Fund movements that the script asks for, in the order it asks. *)
Inductive Invocation : Type :=
| Seed (from_address to_address : string)
| Recover (from_address to_address : string).

Record World : Type := {
  (** lines written by [print] *)
  stdout : list string;
  (** the paths at which [os.path.exists] finds a file *)
  files : gset string;
  (** [eth.get_balance], in wei; an account without entry holds nothing *)
  balances : gmap string Z;
  (** [eth.generateGasPrice()] under the strategy in force *)
  gas_price : Z;
  (** [eth.getTransactionCount] *)
  transaction_count : gmap string Z;
  (** transactions handed to [eth.send_transaction], oldest first *)
  sent : list Transaction;
  (** contract functions transacted, oldest first *)
  transacted : list ContractCall;
  (** hash that the node gives to the n-th submission *)
  hash_of : nat -> list byte;
  (** [gasUsed] of the receipt and [gasPrice] of the transaction *)
  gas_used : list byte -> Z;
  gas_price_of : list byte -> Z;
  (** [contractAddress] of the receipt, empty for [None] *)
  contract_address_of : list byte -> string;
  (** the view functions [returnPassport] and [returnCredential] *)
  returnPassport : string -> result (list value);
  returnCredential : value -> result (list value);
  (** the keys that [Account.create()] draws, and how many it has drawn *)
  entropy : nat -> list byte;
  drawn : nat;
  (** what node, files and compiler do to the coming interactions of the
      guarded block: [Some e] fails one with [e], [None] and the end of the
      list answer *)
  faults : list (option exn);
  (** record of the fund movements requested (not part of the program) *)
  invoked : list Invocation;
}.

Definition balance_of (w : World) (account_address : string) : Z :=
  default 0 (balances w !! account_address).

(** The hash of the submission that comes next. *)
Definition next_hash (w : World) : list byte :=
  hash_of w (List.length (sent w) + List.length (transacted w)).

Definition with_stdout (f : list string -> list string) (w : World) : World :=
  {| stdout := f (stdout w); balances := balances w; gas_price := gas_price w;
     transaction_count := transaction_count w; sent := sent w;
     transacted := transacted w; hash_of := hash_of w; gas_used := gas_used w;
     gas_price_of := gas_price_of w;
     contract_address_of := contract_address_of w; files := files w; returnPassport := returnPassport w;
     returnCredential := returnCredential w; entropy := entropy w;
     drawn := drawn w; faults := faults w; invoked := invoked w |}.

Definition with_sent (f : list Transaction -> list Transaction) (w : World)
  : World :=
  {| stdout := stdout w; balances := balances w; gas_price := gas_price w;
     transaction_count := transaction_count w; sent := f (sent w);
     transacted := transacted w; hash_of := hash_of w; gas_used := gas_used w;
     gas_price_of := gas_price_of w;
     contract_address_of := contract_address_of w; files := files w; returnPassport := returnPassport w;
     returnCredential := returnCredential w; entropy := entropy w;
     drawn := drawn w; faults := faults w; invoked := invoked w |}.

Definition with_transacted (f : list ContractCall -> list ContractCall)
    (w : World) : World :=
  {| stdout := stdout w; balances := balances w; gas_price := gas_price w;
     transaction_count := transaction_count w; sent := sent w;
     transacted := f (transacted w); hash_of := hash_of w;
     gas_used := gas_used w; gas_price_of := gas_price_of w;
     contract_address_of := contract_address_of w; files := files w;
     returnPassport := returnPassport w;
     returnCredential := returnCredential w; entropy := entropy w;
     drawn := drawn w; faults := faults w; invoked := invoked w |}.

Definition with_files (f : gset string -> gset string) (w : World) : World :=
  {| stdout := stdout w; balances := balances w; gas_price := gas_price w;
     transaction_count := transaction_count w; sent := sent w;
     transacted := transacted w; hash_of := hash_of w; gas_used := gas_used w;
     gas_price_of := gas_price_of w;
     contract_address_of := contract_address_of w; files := f (files w);
     returnPassport := returnPassport w;
     returnCredential := returnCredential w; entropy := entropy w;
     drawn := drawn w; faults := faults w; invoked := invoked w |}.

Definition with_drawn (f : nat -> nat) (w : World) : World :=
  {| stdout := stdout w; balances := balances w; gas_price := gas_price w;
     transaction_count := transaction_count w; sent := sent w;
     transacted := transacted w; hash_of := hash_of w; gas_used := gas_used w;
     gas_price_of := gas_price_of w;
     contract_address_of := contract_address_of w; files := files w; returnPassport := returnPassport w;
     returnCredential := returnCredential w; entropy := entropy w;
     drawn := f (drawn w); faults := faults w; invoked := invoked w |}.

Definition with_faults (f : list (option exn) -> list (option exn))
    (w : World) : World :=
  {| stdout := stdout w; balances := balances w; gas_price := gas_price w;
     transaction_count := transaction_count w; sent := sent w;
     transacted := transacted w; hash_of := hash_of w; gas_used := gas_used w;
     gas_price_of := gas_price_of w;
     contract_address_of := contract_address_of w; files := files w; returnPassport := returnPassport w;
     returnCredential := returnCredential w; entropy := entropy w;
     drawn := drawn w; faults := f (faults w); invoked := invoked w |}.

Definition with_invoked (f : list Invocation -> list Invocation) (w : World)
  : World :=
  {| stdout := stdout w; balances := balances w; gas_price := gas_price w;
     transaction_count := transaction_count w; sent := sent w;
     transacted := transacted w; hash_of := hash_of w; gas_used := gas_used w;
     gas_price_of := gas_price_of w;
     contract_address_of := contract_address_of w; files := files w; returnPassport := returnPassport w;
     returnCredential := returnCredential w; entropy := entropy w;
     drawn := drawn w; faults := faults w; invoked := f (invoked w) |}.

(** ** Statements: state and exceptions *)

Definition M (A : Type) : Type := World -> result A * World.

Definition ret {A} (a : A) : M A := fun w => (Return a, w).

Definition raise {A} (e : exn) : M A := fun w => (Raise e, w).

Definition bind {A B} (c : M A) (k : A -> M B) : M B :=
  fun w =>
    match c w with
    | (Return a, w') => k a w'
    | (Raise e, w') => (Raise e, w')
    end.

Definition lift {A} (r : result A) : M A := fun w => (r, w).

Definition gets {A} (f : World -> A) : M A := fun w => (Return (f w), w).

Definition modify (f : World -> World) : M unit := fun w => (Return tt, f w).

Notation "'let!' x ':=' c 'in' k" := (bind c (fun x => k))
  (at level 10, x name, c at level 100, k at level 200).
Notation "c ';;' k" := (bind c (fun _ => k))
  (at level 100, k at level 200, right associativity).

(** [try: body / except Exception as e: handler(e)]: an exception outside
    [Exception] passes through. *)
Definition try_except_Exception {A} (body : M A) (handler : exn -> M A) : M A :=
  fun w =>
    match body w with
    | (Raise e, w') => if is_Exception e then handler e w' else (Raise e, w')
    | done => done
    end.

(** [print(line)] *)
Definition print (line : string) : M unit :=
  modify (with_stdout (fun out => out ++ [line])).

(** One interaction with the node, a file or the compiler inside the
    guarded block. *)
Definition node_call : M unit :=
  fun w =>
    match faults w with
    | Some e :: rest => (Raise e, with_faults (fun _ => rest) w)
    | None :: rest => (Return tt, with_faults (fun _ => rest) w)
    | [] => (Return tt, w)
    end.

(** [str(e)] of an exception, for [print(e)]; the texts of the library
    exceptions are shortened. *)
Definition exn_str (e : exn) : string :=
  match e with
  | Exception msg => msg
  | FileNotFoundError path =>
      "[Errno 2] No such file or directory: '" +:+ path +:+ "'"
  | KeyError k => "'" +:+ k +:+ "'"
  | NameError n => "name '" +:+ n +:+ "' is not defined"
  | IndexError => "list index out of range"
  | TypeError => "unsupported type"
  | ValueError msg => msg
  | JSONDecodeError => "Expecting value"
  | AttributeError => "object has no such attribute"
  | BadSignature => "bad signature"
  | TimeExhausted => "transaction is not in the chain"
  | ConnectionError => "connection failed"
  | KeyboardInterrupt => ""
  | SystemExit => ""
  end.

(** ** Module namespace *)

(** Every name that the module binds at top level: imports, the class, the
    two functions, the configuration constants and the variables of the
    script.  Objects are opaque.  A name that is neither local to a function
    nor listed here (nor a builtin, of which none is used by name lookup
    below) raises [NameError] when read. *)
Definition module_globals : Dict.t value :=
  [("json", VObj "module"); ("pprint", VObj "module"); ("os", VObj "module");
   ("time", VObj "module"); ("binascii", VObj "module");
   ("Web3", VObj "class");
   ("construct_sign_and_send_raw_middleware", VObj "function");
   ("Account", VObj "class"); ("encode_defunct", VObj "function");
   ("fast_gas_price_strategy", VObj "function");
   ("medium_gas_price_strategy", VObj "function");
   ("slow_gas_price_strategy", VObj "function");
   ("HealthPass", VObj "class");
   ("initialize_account", VObj "function");
   ("create_new_account", VObj "function");
   ("INFURA_PROJECT_ID", VStr "1a7577ceeb01411dbb20012cea2c3316");
   ("CONTRACT_OWNER_PRIVATE_KEY", VObj "str");
   ("CONTRACT_ADDRESS", VObj "str");
   ("ISSUER_PRIVATE_KEY", VObj "str");
   ("PASSPORT_PRIVATE_KEY", VObj "str");
   ("INFURA_API_URL", VStr "wss://ropsten.infura.io/ws/v3/");
   ("ETHERSCAN_URL", VStr "https://ropsten.etherscan.io");
   ("CONTRACT_FILEPATH", VStr "HealthPass.sol");
   ("ABI_FILEPATH", VStr "HealthPassABI.json");
   ("BYTECODE_FILEPATH", VStr "HealthPassBytecode.json");
   ("FORCE_COMPILE", VBool false);
   ("GAS_PRICE_STRATEGY", VObj "function");
   ("health_pass", VObj "HealthPass");
   ("contract_owner_account", VObj "LocalAccount");
   ("contract_owner_balance", VObj "Decimal");
   ("issuer_account", VObj "LocalAccount");
   ("recover_eth", VObj "bool");
   ("passport_account", VObj "LocalAccount");
   ("health_data", VObj "dict"); ("credential_data", VObj "dict");
   ("passport_dict", VObj "dict"); ("credential_dict", VObj "dict");
   ("passport_valid", VObj "bool"); ("credential_valid", VObj "bool");
   ("e", VObj "Exception")].

(** Reading a name that is not local to the running function. *)
Definition load_global (name : string) : result value :=
  match Dict.get module_globals name with
  | Return v => Return v
  | Raise _ => Raise (NameError name)
  end.

(** ** The class [HealthPass] *)

(** The attributes of the instance that the methods below read and never
    write.  The attribute [contract_address], which [deploy_contract]
    writes, is passed to [initialize_contract] and returned by it. *)
Record HealthPass : Type := {
  contract_filepath : string;
  abi_filepath : string;
  bytecode_filepath : string;
  etherscan_url : string;
  timeout : Z;
}.

(** The receipt of a transaction; [contractAddress] is empty for [None]. *)
Record Receipt : Type := {
  transactionHash : list byte;
  gasUsed : Z;
  contractAddress : string;
}.

Definition HEALTH_PASSPORT_STRUCT : list string :=
  ["healthJson"; "issuerAddress"; "allowOnlySigned"; "credentialHashes";
   "isActive"].

Definition CREDENTIAL_STRUCT : list string :=
  ["credentialJson"; "issuerAddress"; "passportAddress"; "isValid"].

Section Methods.

Context {E : Externals}.
Variable self : HealthPass.

(** [f(...).transact()] under the account in force. *)
Definition transact (call : ContractCall) : M (list byte) :=
  node_call ;;
  let! tx_hash := gets next_hash in
  modify (with_transacted (fun calls => calls ++ [call])) ;;
  ret tx_hash.

(** [eth.send_transaction(transaction)] *)
Definition send_transaction (transaction : Transaction) : M (list byte) :=
  let! tx_hash := gets next_hash in
  modify (with_sent (fun txs => txs ++ [transaction])) ;;
  ret tx_hash.

(** [eth.waitForTransactionReceipt(tx_hash, timeout=self.timeout)] *)
Definition waitForTransactionReceipt (tx_hash : list byte) : M Receipt :=
  node_call ;;
  let! used := gets (fun w => gas_used w tx_hash) in
  let! created := gets (fun w => contract_address_of w tx_hash) in
  ret {| transactionHash := tx_hash; gasUsed := used;
         contractAddress := created |}.

Definition tx_url (tx_hash : list byte) : string :=
  etherscan_url self +:+ "/tx/0x" +:+ Hex.hexlify tx_hash.

(** [calculate_transaction_cost] *)
Definition calculate_transaction_cost (tx_receipt : Receipt) : M Q :=
  node_call ;;
  let! gas_price :=
    gets (fun w => gas_price_of w (transactionHash tx_receipt)) in
  let wei_cost := gasUsed tx_receipt * gas_price in
  let! eth_cost := lift (fromWei wei_cost) in
  ret eth_cost.

(** [initialize_web3]: builds the provider object and sets the signing
    account and the price strategy; nothing is sent to the node. *)
Definition initialize_web3 (account : Account) : M unit := ret tt.

(** [compile_contract]: the source is read, which fails when there is no
    such file; the compiler is imported and run, and what comes of that is
    up to the environment; the interface is written to the two files. *)
Definition compile_contract : M unit :=
  print ("compiling contract at " +:+ contract_filepath self) ;;
  let! found :=
    gets (fun w => bool_decide (contract_filepath self ∈ files w)) in
  if found
  then
    node_call ;;
    modify (with_files (fun paths =>
      paths ∪ {[ abi_filepath self ]} ∪ {[ bytecode_filepath self ]}))
  else raise (FileNotFoundError (contract_filepath self)).

(** Lines 80 to 90 of [initialize_contract]: the interface is read from
    the two files when both exist and no compilation is forced, each
    [json.load] with an outcome that is up to the content of the file; it
    is compiled otherwise. *)
Definition load_interface (force_compile : bool) : M unit :=
  let! stored :=
    gets (fun w => bool_decide (abi_filepath self ∈ files w) &&
                   bool_decide (bytecode_filepath self ∈ files w)) in
  if stored && negb force_compile
  then node_call ;; node_call
  else compile_contract.

(** [web3.eth.contract(address=..., abi=...)]: the library checks the
    address, and resolves it through the node when it is a name. *)
Definition attach_contract (contract_address : string) : M unit := node_call.

(** [deploy_contract]: the constructor is transacted (the contract object
    is built from interface and bytecode as part of that step) and the
    receipt awaited; the address in the receipt becomes the
    [contract_address] of the instance, which is returned, and the
    contract is attached to at that address. *)
Definition deploy_contract : M string :=
  print "deploying contract" ;;
  let! tx_hash := transact contract_constructor in
  print ("Contract transaction URL: " +:+ tx_url tx_hash) ;;
  let! tx_receipt := waitForTransactionReceipt tx_hash in
  let contract_address := contractAddress tx_receipt in
  print ("Contract URL: " +:+ etherscan_url self +:+ "/address/" +:+
         contract_address) ;;
  let! cost := calculate_transaction_cost tx_receipt in
  print ("Transaction Cost: " +:+ decimal_str cost +:+ " Eth") ;;
  attach_contract contract_address ;;
  ret contract_address.

(** [initialize_contract], applied to the [contract_address] of the
    instance and returning it as the method leaves it.  An address that is
    not empty is attached to; otherwise the contract is deployed and its
    code is asked for through the module variable [health_pass].  The
    [while] loop on the code compares the [HexBytes] that [getCode] returns
    with two pieces of text, to which no [bytes] value is equal: its body
    does not run. *)
Definition initialize_contract (force_compile : bool)
    (contract_address : string) : M string :=
  load_interface force_compile ;;
  if negb (String.eqb contract_address "")
  then
    print "contract address provided, initializing..." ;;
    attach_contract contract_address ;;
    ret contract_address
  else
    let! contract_address := deploy_contract in
    print "new contract initialized" ;;
    let! _ := lift (load_global "health_pass") in
    node_call ;;
    ret contract_address.

(** [authorize_issuer] *)
Definition authorize_issuer (issuer_name : string) (issuer_account : Account)
  : M unit :=
  print ("Authorizing " +:+ issuer_name +:+ " (" +:+ address issuer_account
         +:+ ") as Issuer") ;;
  let! tx_hash :=
    transact (authorizeIssuer issuer_name (address issuer_account)) in
  print ("Authorize Issuer transaction URL: " +:+ tx_url tx_hash) ;;
  let! tx_receipt := waitForTransactionReceipt tx_hash in
  print (issuer_name +:+ " authorized!") ;;
  let! cost := calculate_transaction_cost tx_receipt in
  print ("Transaction Cost: " +:+ decimal_str cost +:+ " Eth").

(** [sign_data] *)
Definition sign_data (data : string) (signing_account : Account) : string :=
  let message := encode_defunct data in
  let signature := ec_sign message (privateKey signing_account) in
  Hex.hex signature.

(** [validate_signature] *)
Definition validate_signature (data signature signer_address : string)
  : result bool :=
  let message := encode_defunct data in
  rbind (recover_message message signature) (fun address =>
    if String.eqb signer_address address then Return true else Return false).

(** [{k: self.sign_data(v, account) for k, v in d.items()}] *)
Definition sign_items (d : Dict.t string) (account : Account) : Dict.t string :=
  map (fun kv => (fst kv, sign_data (snd kv) account)) d.

Definition json_of_signed (hashed_dict : Dict.t string) : value :=
  VDict (map (fun kv => (fst kv, VStr (snd kv))) hashed_dict).

(** [create_health_passport]: the third argument of the contract function
    is read from a name that the method does not bind. *)
Definition create_health_passport (health_dict : Dict.t string)
    (issuer_account passport_account : Account) : M unit :=
  let hashed_dict := sign_items health_dict issuer_account in
  let json_string := json_dumps (json_of_signed hashed_dict) in
  let! allow_only_signed := lift (load_global "allow_only_signed") in
  let! tx_hash :=
    transact (createHealthPassport json_string (address passport_account)
                                   allow_only_signed) in
  print ("Create Health Passport transaction URL: " +:+ tx_url tx_hash) ;;
  let! tx_receipt := waitForTransactionReceipt tx_hash in
  print ("Health Passport " +:+ address passport_account +:+ " created!") ;;
  let! cost := calculate_transaction_cost tx_receipt in
  print ("Transaction Cost: " +:+ decimal_str cost +:+ " Eth").

(** [create_credential] *)
Definition create_credential (credential_dict : Dict.t string)
    (issuer_account passport_account : Account) : M unit :=
  let hashed_dict := sign_items credential_dict issuer_account in
  let json_string := json_dumps (json_of_signed hashed_dict) in
  let! tx_hash :=
    transact (createCredential json_string (address passport_account) []) in
  print ("Create Health Passport transaction URL: " +:+ tx_url tx_hash) ;;
  let! tx_receipt := waitForTransactionReceipt tx_hash in
  print ("Credential created for passport " +:+ address passport_account
         +:+ "!") ;;
  let! cost := calculate_transaction_cost tx_receipt in
  print ("Transaction Cost: " +:+ decimal_str cost +:+ " Eth").

(** [json.loads(v)]: text or bytes, anything else is a [TypeError]. *)
Definition loads (v : value) : result value :=
  match v with
  | VStr s => json_loads s
  | VBytes bs => json_loads (string_of_list_byte bs)
  | _ => Raise TypeError
  end.

(** [get_health_passport]; the contract is reached through the module
    variable [health_pass]. *)
Definition get_health_passport (passport_address : string)
  : M (Dict.t value) :=
  let! _ := lift (load_global "health_pass") in
  let! health_passport_values :=
    bind (gets returnPassport) (fun view => lift (view passport_address)) in
  let health_passport_dict :=
    Dict.of_pairs (zip HEALTH_PASSPORT_STRUCT health_passport_values) in
  let! payload := lift (Dict.get health_passport_dict "healthJson") in
  let! parsed := lift (loads payload) in
  ret (Dict.set health_passport_dict "healthJson" parsed).

(** [get_credential] *)
Definition get_credential (credential_hash : value) : M (Dict.t value) :=
  let! _ := lift (load_global "health_pass") in
  let! credential_values :=
    bind (gets returnCredential) (fun view => lift (view credential_hash)) in
  let credential_dict :=
    Dict.of_pairs (zip CREDENTIAL_STRUCT credential_values) in
  let! payload := lift (Dict.get credential_dict "credentialJson") in
  let! parsed := lift (loads payload) in
  ret (Dict.set credential_dict "credentialJson" parsed).

Definition mismatch_warning (key : string) : string :=
  "WARNING!!!  User plain text health data for " +:+ key +:+
  " does not match signature!".

(** [validate_data_dict]: the loop over [signature_dict.items()]. *)
Fixpoint validate_data_dict (plaintext_dict signature_dict : Dict.t string)
    (signer_address : string) : M bool :=
  match signature_dict with
  | [] => ret true
  | (key, data_signature) :: rest =>
      let! data := lift (Dict.get plaintext_dict key) in
      let! is_valid :=
        lift (validate_signature data data_signature signer_address) in
      if negb is_valid
      then print (mismatch_warning key) ;; ret false
      else validate_data_dict plaintext_dict rest signer_address
  end.

(** [transfer_eth]; [if gas_price:] and [if gas_amount:] skip [None] and
    zero alike. *)
Definition truthy (n : option Z) : option Z :=
  match n with
  | Some z => if z =? 0 then None else Some z
  | None => None
  end.

Definition transfer_eth (from_address to_address : string) (amount : Q)
    (gas_price gas_amount : option Z) : M unit :=
  let! value := lift (toWei amount) in
  let! nonce :=
    gets (fun w => default 0 (transaction_count w !! from_address)) in
  let transaction :=
    {| tx_from := from_address; tx_to := to_address; tx_value := value;
       tx_chainId := 3; tx_nonce := nonce;
       tx_gasPrice := truthy gas_price; tx_gas := truthy gas_amount |} in
  let! tx_hash := send_transaction transaction in
  print ("Sent " +:+ decimal_str amount +:+ " Eth from " +:+ from_address
         +:+ " to " +:+ to_address +:+ "!") ;;
  print ("Transaction URL: " +:+ tx_url tx_hash).

(** [eth.get_balance(address)], in wei *)
Definition get_balance (account_address : string) : M Z :=
  gets (fun w => balance_of w account_address).

(** [get_account_balance] *)
Definition get_account_balance (account_address : string) : M Q :=
  let! wei := get_balance account_address in
  lift (fromWei wei).

(** [send_account_balance] *)
Definition send_account_balance (from_address to_address : string) : M unit :=
  let! account_balance := get_balance from_address in
  if account_balance =? 0 then print "No eth to send!"
  else
    let! gas_price := gets gas_price in
    let! balance_minus_gas :=
      lift (fromWei (account_balance - 21000 * gas_price)) in
    transfer_eth from_address to_address balance_minus_gas
                 (Some gas_price) (Some 21000).

End Methods.

(** ** Module functions and the script *)

(** [initialize_account] *)
Definition initialize_account `{Externals} (private_key : string)
  : result Account :=
  let private_key :=
    if String.prefix "0x" private_key then private_key
    else "0x" +:+ private_key in
  privateKeyToAccount private_key.

(** [create_new_account]: [Account.create()] draws a key. *)
Definition create_new_account `{Externals} : M Account :=
  let! key := gets (fun w => entropy w (drawn w)) in
  modify (with_drawn S) ;;
  lift (account_from_key key).

(** The block headed CONFIGURATION, which whoever runs the script fills in. *)
Record Config : Type := {
  CONTRACT_OWNER_PRIVATE_KEY : string;
  CONTRACT_ADDRESS : string;
  ISSUER_PRIVATE_KEY : string;
  PASSPORT_PRIVATE_KEY : string;
  ETHERSCAN_URL : string;
  FORCE_COMPILE : bool;
}.

(** [HealthPass(...)] as the script builds it; the three paths are the
    ones that the configuration block fixes. *)
Definition health_pass (cfg : Config) : HealthPass :=
  {| contract_filepath := "HealthPass.sol";
     abi_filepath := "HealthPassABI.json";
     bytecode_filepath := "HealthPassBytecode.json";
     etherscan_url := ETHERSCAN_URL cfg; timeout := 300 |}.

Definition health_data : Dict.t string :=
  [("First Name", "John"); ("Last Name", "Smith");
   ("Date of Birth", "10/5/1970")].

Definition credential_data : Dict.t string :=
  [("Vaccine Type", "Moderna"); ("Date", "4/1/2021"); ("Dose #", "1")].

(** The [float] literal [0.1], exactly. *)
Definition float_0_1 : Q := (3602879701896397 # 36028797018963968)%Q.

(** [v[0]] *)
Definition first_item (v : value) : result value :=
  match v with
  | VList (x :: _) => Return x
  | VList [] => Raise IndexError
  | VStr s => match s with
              | String c _ => Return (VStr (String c ""))
              | EmptyString => Raise IndexError
              end
  | VDict kvs => Raise (KeyError "0")
  | _ => Raise TypeError
  end.

(** The signature dictionary and the signer address as the script takes
    them out of a decoded record.  Signatures other than text are left out
    of the model and reported as [TypeError]. *)
Fixpoint signature_items (kvs : list (string * value))
  : result (Dict.t string) :=
  match kvs with
  | [] => Return []
  | (k, VStr s) :: rest =>
      rbind (signature_items rest) (fun d => Return ((k, s) :: d))
  | _ :: _ => Raise TypeError
  end.

Definition signature_dict_of (v : value) : result (Dict.t string) :=
  match v with
  | VDict kvs => signature_items kvs
  | _ => Raise AttributeError
  end.

Definition address_text (v : value) : string :=
  match v with
  | VStr s => s
  | _ => ""
  end.

Section Script.

Context {E : Externals}.
Variable cfg : Config.

Let self : HealthPass := health_pass cfg.

(** Lines 431 to 468: accounts are set up, and the issuer is funded when no
    issuer key is configured. *)
Definition prelude : M (Account * Account * Account * bool) :=
  print "starting!" ;;
  let! contract_owner_account :=
    lift (initialize_account (CONTRACT_OWNER_PRIVATE_KEY cfg)) in
  initialize_web3 contract_owner_account ;;
  let! contract_owner_balance :=
    get_account_balance (address contract_owner_account) in
  (if negb (Qle_bool float_0_1 contract_owner_balance)
   then print (nl +:+ nl +:+ "WARNING! Contract Owner Account only has " +:+
               decimal_str contract_owner_balance +:+
               " Eth which may not be enough for contract deployment " +:+
               "and interaction!" +:+ nl +:+ nl)
   else ret tt) ;;
  let! issuer :=
    (if String.eqb (ISSUER_PRIVATE_KEY cfg) ""
     then
       print ("Issuer private key not provided, " +:+
              "generating a new one and transferring some Eth") ;;
       let! issuer_account := create_new_account in
       transfer_eth self (address contract_owner_account)
                    (address issuer_account) (5 # 100)%Q None None ;;
       modify (with_invoked (fun l =>
         l ++ [Seed (address contract_owner_account)
                    (address issuer_account)])) ;;
       ret (issuer_account, true)
     else
       let! issuer_account :=
         lift (initialize_account (ISSUER_PRIVATE_KEY cfg)) in
       ret (issuer_account, false)) in
  let issuer_account := fst issuer in
  let recover_eth := snd issuer in
  let! passport_account :=
    (if String.eqb (PASSPORT_PRIVATE_KEY cfg) ""
     then
       print "Passport private key not provided, generating a new one" ;;
       create_new_account
     else lift (initialize_account (PASSPORT_PRIVATE_KEY cfg))) in
  ret (contract_owner_account, issuer_account, passport_account, recover_eth).

(** Lines 472 to 545: the body of the [try]. *)
Definition guarded_block (issuer_account passport_account : Account)
  : M unit :=
  let! contract_address :=
    initialize_contract self (FORCE_COMPILE cfg) (CONTRACT_ADDRESS cfg) in
  print (nl +:+ "Setup Complete!" +:+ nl) ;;
  authorize_issuer self "Pat Walker Health Center" issuer_account ;;
  initialize_web3 issuer_account ;;
  let! contract_address := initialize_contract self false contract_address in
  create_health_passport self health_data issuer_account passport_account ;;
  create_credential self credential_data issuer_account passport_account ;;
  let! passport_dict := get_health_passport (address passport_account) in
  print (pformat (VDict passport_dict)) ;;
  let! credential_hashes := lift (Dict.get passport_dict "credentialHashes") in
  let! credential_hash := lift (first_item credential_hashes) in
  let! credential_dict := get_credential credential_hash in
  print (pformat (VDict credential_dict)) ;;
  let! passport_json := lift (Dict.get passport_dict "healthJson") in
  let! passport_issuer := lift (Dict.get passport_dict "issuerAddress") in
  let! passport_signatures := lift (signature_dict_of passport_json) in
  let! passport_valid :=
    validate_data_dict health_data passport_signatures
                       (address_text passport_issuer) in
  let! credential_json := lift (Dict.get credential_dict "credentialJson") in
  let! credential_issuer := lift (Dict.get credential_dict "issuerAddress") in
  let! credential_signatures := lift (signature_dict_of credential_json) in
  let! credential_valid :=
    validate_data_dict credential_data credential_signatures
                       (address_text credential_issuer) in
  if negb passport_valid || negb credential_valid
  then print (nl +:+ nl +:+
              "User Passport or Credential Invalid! Deny entry!" +:+ nl +:+ nl)
  else print (nl +:+ nl +:+
              "User Passport and Credential valid! Access granted!"
              +:+ nl +:+ nl).

(** Lines 472 to 551: the [try], its handler, and the recovery that
    follows when the issuer was funded. *)
Definition guarded_then_recover
    (accounts : Account * Account * Account * bool) : M unit :=
  let '(contract_owner_account, issuer_account, passport_account,
        recover_eth) := accounts in
  try_except_Exception
    (guarded_block issuer_account passport_account)
    (fun e => print (exn_str e)) ;;
  (if recover_eth
   then
     modify (with_invoked (fun l =>
       l ++ [Recover (address issuer_account)
                     (address contract_owner_account)])) ;;
     send_account_balance self (address issuer_account)
                          (address contract_owner_account)
   else ret tt) ;;
  print "done!".

(** The script under [if __name__ == '__main__']. *)
Definition main : M unit :=
  let! accounts := prelude in
  guarded_then_recover accounts.

End Script.

(** Fund movements recorded in a world. *)
Definition is_recover (i : Invocation) : bool :=
  match i with Recover _ _ => true | Seed _ _ => false end.

Definition is_seed (i : Invocation) : bool :=
  match i with Seed _ _ => true | Recover _ _ => false end.

Definition recoveries (w : World) : nat :=
  List.length (List.filter is_recover (invoked w)).

Definition seedings (w : World) : nat :=
  List.length (List.filter is_seed (invoked w)).

(** ** The specification's validator *)

(** [validateAll] as the specification words it: a result that is either
    success or the name of the first field whose signature does not verify. *)
Fixpoint validateAll `{Externals} (plaintext signed : Dict.t string)
    (expectedAddress : string) : result (unit + string) :=
  match signed with
  | [] => Return (inl tt)
  | (field, signature) :: rest =>
      rbind (Dict.get plaintext field) (fun value =>
      rbind (validate_signature value signature expectedAddress) (fun ok =>
        if ok then validateAll plaintext rest expectedAddress
        else Return (inr field)))
  end.

(** ** A sample environment *)

(** Stand-ins for the libraries, on which the statements below are run.  The
    sample address of a key is its first twenty bytes, and the keys in range
    are those whose address bytes are not all zero.  The sample signature
    carries the signer's twenty address bytes, a digest of the message and
    the recovery byte 27; recovery from a signature whose digest does not
    fit the message yields the address of no key, and recovery from a
    signature made with the all-zero key fails, as it does in [eth_keys],
    where that signature determines no public key.  The sample JSON codec
    knows the empty object. *)
Module Sample.

Definition zero : byte := x00.

Definition is_zero (b : byte) : bool := Byte.eqb b zero.

Definition pad (n : nat) (bs : list byte) : list byte :=
  take n (bs ++ repeat zero n).

Definition digest (m : SignableMessage) : list byte :=
  pad 44 (body m ++ header m).

Definition address_of_key (key : list byte) : string := Hex.hex (pad 20 key).

Definition key_in_range (key : list byte) : bool :=
  negb (forallb is_zero (pad 20 key)).

Definition ec_sign (m : SignableMessage) (key : list byte) : list byte :=
  pad 20 key ++ digest m ++ [x1b].

Definition ec_recover (m : SignableMessage) (signature : list byte)
  : result string :=
  if (List.length signature =? 65)%nat
  then
    if forallb is_zero (take 20 signature) then Raise BadSignature
    else if String.eqb (Hex.hexlify (take 44 (drop 20 signature)))
                       (Hex.hexlify (digest m))
    then Return (Hex.hex (take 20 signature))
    else Return (Hex.hex (repeat zero 20))
  else Raise BadSignature.

Definition json_dumps (v : value) : string := "{}".

Definition json_loads (s : string) : result value :=
  if String.eqb s "{}" then Return (VDict []) else Raise JSONDecodeError.

Definition decimal_str (q : Q) : string :=
  pretty (Qnum q) +:+ "/" +:+ pretty (Z.pos (Qden q)).

Definition pformat (v : value) : string := "".

Definition externals : Externals :=
  Build_Externals key_in_range address_of_key ec_sign ec_recover
                  json_dumps json_loads decimal_str pformat.

(** Keys and accounts. *)
Definition key (b : byte) : list byte := repeat b 32.

Definition alice : Account := {| privateKey := key "a"%byte |}.
Definition bob : Account := {| privateKey := key "b"%byte |}.



Definition alice_key_text : string := Hex.hexlify (key "a"%byte).

(** The files of the repository, and the address at which the sample node
    deploys. *)
Definition repository : gset string :=
  {[ "HealthPass.sol"; "HealthPassABI.json"; "HealthPassBytecode.json" ]}.

Definition deployed_at : string := address_of_key (key "d"%byte).

(** A node that holds nothing, answers every interaction and hands out the
    keys 01.., 02.., ... *)
Definition no_view {A} (_ : A) : result (list value) := Return [].

Definition fresh_key (n : nat) : list byte :=
  key (default zero (Byte.of_N (N.of_nat (S n)))).

Definition quiet : World :=
  {| stdout := []; balances := ∅; gas_price := 0; transaction_count := ∅;
     sent := []; transacted := []; hash_of := fun _ => [];
     gas_used := fun _ => 0; gas_price_of := fun _ => 0;
     contract_address_of := fun _ => deployed_at; files := repository;
     returnPassport := no_view; returnCredential := no_view;
     entropy := fresh_key; drawn := 0; faults := []; invoked := [] |}.

Definition self : HealthPass :=
  {| contract_filepath := "HealthPass.sol";
     abi_filepath := "HealthPassABI.json";
     bytecode_filepath := "HealthPassBytecode.json";
     etherscan_url := "https://ropsten.etherscan.io"; timeout := 300 |}.

(** A node on which the account of [bob] holds a tenth of an ether, and one
    on which it holds less than a transfer costs, at a price of one gwei. *)
Definition funded : World :=
  {| stdout := []; balances := {[ address_of_key (key "b"%byte) := 10 ^ 17 ]};
     gas_price := 10 ^ 9; transaction_count := ∅;
     sent := []; transacted := []; hash_of := fun _ => [];
     gas_used := fun _ => 0; gas_price_of := fun _ => 0;
     contract_address_of := fun _ => deployed_at; files := repository;
     returnPassport := no_view; returnCredential := no_view;
     entropy := fresh_key; drawn := 0; faults := []; invoked := [] |}.

Definition dust : World :=
  {| stdout := []; balances := {[ address_of_key (key "b"%byte) := 10 ^ 13 ]};
     gas_price := 10 ^ 9; transaction_count := ∅;
     sent := []; transacted := []; hash_of := fun _ => [];
     gas_used := fun _ => 0; gas_price_of := fun _ => 0;
     contract_address_of := fun _ => deployed_at; files := repository;
     returnPassport := no_view; returnCredential := no_view;
     entropy := fresh_key; drawn := 0; faults := []; invoked := [] |}.

(** A node on which the account of [bob] holds a tenth of an ether and the
    strategy in force generates the price zero. *)
Definition unpriced : World :=
  {| stdout := []; balances := {[ address_of_key (key "b"%byte) := 10 ^ 17 ]};
     gas_price := 0; transaction_count := ∅;
     sent := []; transacted := []; hash_of := fun _ => [];
     gas_used := fun _ => 0; gas_price_of := fun _ => 0;
     contract_address_of := fun _ => deployed_at; files := repository;
     returnPassport := no_view; returnCredential := no_view;
     entropy := fresh_key; drawn := 0; faults := []; invoked := [] |}.

(** A node whose views answer every query with the given tuples. *)
Definition serving (passport credential : list value) : World :=
  {| stdout := []; balances := ∅; gas_price := 0; transaction_count := ∅;
     sent := []; transacted := []; hash_of := fun _ => [];
     gas_used := fun _ => 0; gas_price_of := fun _ => 0;
     contract_address_of := fun _ => deployed_at; files := repository;
     returnPassport := fun _ => Return passport;
     returnCredential := fun _ => Return credential;
     entropy := fresh_key; drawn := 0; faults := []; invoked := [] |}.

Definition passport_tuple : list value :=
  [VStr "{}"; VStr (address_of_key (key "a"%byte)); VBool false;
   VList [VBytes (key "c"%byte)]; VBool true].

Definition credential_tuple : list value :=
  [VStr "{}"; VStr (address_of_key (key "a"%byte));
   VStr (address_of_key (key "b"%byte)); VBool true].

(** Configurations of the script: the owner key alone; the same with a
    passport key that is no hexadecimal text; the same with the issuer key
    given. *)
Definition config : Config :=
  {| CONTRACT_OWNER_PRIVATE_KEY := alice_key_text; CONTRACT_ADDRESS := "";
     ISSUER_PRIVATE_KEY := ""; PASSPORT_PRIVATE_KEY := "";
     ETHERSCAN_URL := "https://ropsten.etherscan.io";
     FORCE_COMPILE := false |}.

Definition config_bad_passport_key : Config :=
  {| CONTRACT_OWNER_PRIVATE_KEY := alice_key_text; CONTRACT_ADDRESS := "";
     ISSUER_PRIVATE_KEY := ""; PASSPORT_PRIVATE_KEY := "zz";
     ETHERSCAN_URL := "https://ropsten.etherscan.io";
     FORCE_COMPILE := false |}.

Definition config_with_issuer : Config :=
  {| CONTRACT_OWNER_PRIVATE_KEY := alice_key_text; CONTRACT_ADDRESS := "";
     ISSUER_PRIVATE_KEY := Hex.hexlify (key "b"%byte);
     PASSPORT_PRIVATE_KEY := "";
     ETHERSCAN_URL := "https://ropsten.etherscan.io";
     FORCE_COMPILE := false |}.

(** A node on which the first interaction of the guarded block is cut
    short by the keyboard. *)
Definition interrupted : World :=
  with_faults (fun _ => [Some KeyboardInterrupt]) quiet.

(** The demo record signed by [alice], and two copies in which one field
    carries the signature of another field. *)
Definition signature_of (text : string) : string :=
  @sign_data externals text alice.

Definition signed_health_data : Dict.t string :=
  [("First Name", signature_of "John"); ("Last Name", signature_of "Smith");
   ("Date of Birth", signature_of "10/5/1970")].

Definition swapped_last_name : Dict.t string :=
  [("First Name", signature_of "John"); ("Last Name", signature_of "John");
   ("Date of Birth", signature_of "10/5/1970")].

Definition swapped_date_of_birth : Dict.t string :=
  [("First Name", signature_of "John"); ("Last Name", signature_of "Smith");
   ("Date of Birth", signature_of "John")].

(** A signed record with a field that the plain text lacks, behind a
    field that verifies and behind one that does not. *)
Definition with_blood_type : Dict.t string :=
  [("First Name", signature_of "John"); ("Blood Type", signature_of "A")].

Definition with_blood_type_after_mismatch : Dict.t string :=
  [("First Name", signature_of "Jane"); ("Blood Type", signature_of "A")].

End Sample.

(** ** Vocabulary of the statements *)

Section Vocabulary.

Context {E : Externals}.

(** The field of the entry is in the plain text and the signature of the
    entry verifies for it; is in the plain text and does not verify. *)
Definition verifies (plaintext_dict : Dict.t string) (signer_address : string)
    (entry : string * string) : Prop :=
  exists data, Dict.get plaintext_dict (fst entry) = Return data /\
               validate_signature data (snd entry) signer_address = Return true.

Definition mismatches (plaintext_dict : Dict.t string)
    (signer_address : string) (entry : string * string) : Prop :=
  exists data, Dict.get plaintext_dict (fst entry) = Return data /\
               validate_signature data (snd entry) signer_address = Return false.

(** A statement leaves a component of the world as it was. *)
Definition keeps {A X : Type} (component : World -> X) (c : M A) : Prop :=
  forall w, component (snd (c w)) = component w.

(** A result that, if it is an exception, is one that derives from
    [Exception]. *)
Definition ordinary {A} (r : result A) : Prop :=
  forall e, r = Raise e -> is_Exception e = true.

(** A node whose failures are exceptions that derive from [Exception]. *)
Definition benign (w : World) : Prop :=
  Forall (fun fault => forall e, fault = Some e -> is_Exception e = true)
         (faults w).

(** A statement that, on such a node, raises only such exceptions and
    leaves such a node. *)
Definition tame {A} (c : M A) : Prop :=
  forall w, benign w -> ordinary (fst (c w)) /\ benign (snd (c w)).

(** The transaction that funds a fresh issuer account. *)
Definition seed_transaction (w : World) (owner issuer : Account)
  : Transaction :=
  {| tx_from := address owner; tx_to := address issuer;
     tx_value := 5 * 10 ^ 16; tx_chainId := 3;
     tx_nonce := default 0 (transaction_count w !! address owner);
     tx_gasPrice := None; tx_gas := None |}.

End Vocabulary.

(** ** Further vocabulary *)

(** The node answers the interaction that comes next. *)
Definition node_answers (w : World) : Prop :=
  forall e rest, faults w <> Some e :: rest.

(** A statement appends nothing to a log of the world, or one entry of the
    given kind. *)
Definition adds_at_most_one {A X : Type} (log : World -> list X)
    (kind : X -> Prop) (c : M A) : Prop :=
  forall w, log (snd (c w)) = log w \/
            exists x, kind x /\ log (snd (c w)) = log w ++ [x].

(** A statement appends to a log of the world, and only entries of the
    given kind. *)
Definition appends_only {A X : Type} (log : World -> list X)
    (kind : X -> Prop) (c : M A) : Prop :=
  forall w, exists added,
    log (snd (c w)) = log w ++ added /\ Forall kind added.

(** The call by which the script authorizes an issuer. *)
Definition authorizes_demo_issuer (call : ContractCall) : Prop :=
  exists issuer_address,
    call = authorizeIssuer "Pat Walker Health Center" issuer_address.

(** A deployment of the contract, or that call. *)
Definition deploys_or_authorizes (call : ContractCall) : Prop :=
  call = contract_constructor \/ authorizes_demo_issuer call.

(** The request to fund some issuer account. *)
Definition seeds (i : Invocation) : Prop :=
  exists owner issuer, i = Seed owner issuer.

(** The configuration as the source ships it: every key is left empty. *)
Definition shipped_config : Config :=
  {| CONTRACT_OWNER_PRIVATE_KEY := ""; CONTRACT_ADDRESS := "";
     ISSUER_PRIVATE_KEY := ""; PASSPORT_PRIVATE_KEY := "";
     ETHERSCAN_URL := "https://ropsten.etherscan.io";
     FORCE_COMPILE := false |}.

(** A node on which every transaction used 21000 gas at a price of one
    gwei. *)
Definition settled : World :=
  {| stdout := []; balances := ∅; gas_price := 10 ^ 9;
     transaction_count := ∅; sent := []; transacted := [];
     hash_of := fun _ => []; gas_used := fun _ => 21000;
     gas_price_of := fun _ => 10 ^ 9;
     contract_address_of := fun _ => Sample.deployed_at;
     files := Sample.repository;
     returnPassport := Sample.no_view; returnCredential := Sample.no_view;
     entropy := Sample.fresh_key; drawn := 0; faults := []; invoked := [] |}.

(** ** The verifier's steps *)

Section Verifier.

Context {E : Externals}.

(** Lines 516 and 531 to 532 of the script: the passport is read back and
    the plain text is validated against its signatures and its issuer. *)
Definition read_and_validate_passport (plaintext_dict : Dict.t string)
    (passport_address : string) : M bool :=
  let! passport_dict := get_health_passport passport_address in
  let! passport_json := lift (Dict.get passport_dict "healthJson") in
  let! passport_issuer := lift (Dict.get passport_dict "issuerAddress") in
  let! passport_signatures := lift (signature_dict_of passport_json) in
  validate_data_dict plaintext_dict passport_signatures
                     (address_text passport_issuer).

(** Lines 522 and 536 to 537 of the script, for a credential. *)
Definition read_and_validate_credential (plaintext_dict : Dict.t string)
    (credential_hash : value) : M bool :=
  let! credential_dict := get_credential credential_hash in
  let! credential_json := lift (Dict.get credential_dict "credentialJson") in
  let! credential_issuer := lift (Dict.get credential_dict "issuerAddress") in
  let! credential_signatures := lift (signature_dict_of credential_json) in
  validate_data_dict plaintext_dict credential_signatures
                     (address_text credential_issuer).

End Verifier.

(** ** A sample JSON codec *)

(** The sample environment with a codec for the objects that the program
    writes: flat objects of text values, in the layout of [json.dumps],
    without escapes. *)
Module Flat.

Definition quote : ascii := "034"%char.

Definition quoted (s : string) : string :=
  String quote (s +:+ String quote "").

Fixpoint dump_entries (kvs : list (string * value)) : string :=
  match kvs with
  | [] => ""
  | (k, v) :: rest =>
      quoted k +:+ ": " +:+
      match v with VStr s => quoted s | _ => "null" end +:+
      match rest with [] => "" | _ :: _ => ", " +:+ dump_entries rest end
  end.

Definition json_dumps (v : value) : string :=
  match v with
  | VDict kvs => "{" +:+ dump_entries kvs +:+ "}"
  | _ => "null"
  end.

(** The text up to the next quote, and what follows the quote. *)
Fixpoint until_quote (s : string) : option (string * string) :=
  match s with
  | EmptyString => None
  | String c r =>
      if Ascii.eqb c quote then Some ("", r)
      else match until_quote r with
           | Some (t, r') => Some (String c t, r')
           | None => None
           end
  end.

(** What follows a given beginning. *)
Fixpoint after (beginning s : string) : option string :=
  match beginning, s with
  | EmptyString, _ => Some s
  | String a beginning', String b s' =>
      if Ascii.eqb a b then after beginning' s' else None
  | String _ _, EmptyString => None
  end.

Fixpoint load_entries (fuel : nat) (s : string)
  : option (list (string * value)) :=
  match fuel with
  | O => None
  | S fuel' =>
      match after (String quote "") s with
      | None => None
      | Some r0 =>
          match until_quote r0 with
          | None => None
          | Some (k, r1) =>
              match after (": " +:+ String quote "") r1 with
              | None => None
              | Some r2 =>
                  match until_quote r2 with
                  | None => None
                  | Some (v, r3) =>
                      if String.eqb r3 "}" then Some [(k, VStr v)]
                      else
                        match after ", " r3 with
                        | None => None
                        | Some r4 =>
                            match load_entries fuel' r4 with
                            | Some kvs => Some ((k, VStr v) :: kvs)
                            | None => None
                            end
                        end
                  end
              end
          end
      end
  end.

Definition json_loads (s : string) : result value :=
  if String.eqb s "{}" then Return (VDict [])
  else
    match after "{" s with
    | Some r =>
        match load_entries (String.length r) r with
        | Some kvs => Return (VDict kvs)
        | None => Raise JSONDecodeError
        end
    | None => Raise JSONDecodeError
    end.

Definition externals : Externals :=
  Build_Externals Sample.key_in_range Sample.address_of_key Sample.ec_sign
                  Sample.ec_recover json_dumps json_loads Sample.decimal_str
                  Sample.pformat.

(** The payload that a passport of the demo record carries when [alice]
    issued it, and the tuples that the views return for it. *)
Definition payload (d : Dict.t string) : string :=
  json_dumps (json_of_signed (@sign_items externals d Sample.alice)).

Definition ledger : World :=
  Sample.serving
    [VStr (payload health_data);
     VStr (Sample.address_of_key (Sample.key "a"%byte));
     VBool false; VList [VBytes (Sample.key "c"%byte)]; VBool true]
    [VStr (payload credential_data);
     VStr (Sample.address_of_key (Sample.key "a"%byte));
     VStr (Sample.address_of_key (Sample.key "b"%byte)); VBool true].

End Flat.

(** * Properties *)

(** ** Hexadecimal text *)

Lemma byte_of_byte_digits (b : byte) :
  Hex.byte_of_digits (Hex.digit (Byte.to_N b / 16))
                     (Hex.digit (Byte.to_N b mod 16)) = Some b.
Proof. destruct b; vm_compute; reflexivity. Qed.

Lemma unhexlify_hexlify (bs : list byte) :
  Hex.unhexlify (Hex.hexlify bs) = Some bs.
Proof.
  induction bs as [|b bs IH]; [reflexivity|].
  cbn [Hex.hexlify Hex.unhexlify].
  rewrite byte_of_byte_digits, IH. reflexivity.
Qed.

Lemma length_hexlify (bs : list byte) :
  String.length (Hex.hexlify bs) = (2 * List.length bs)%nat.
Proof.
  induction bs as [|b bs IH]; [reflexivity|].
  cbn [Hex.hexlify String.length List.length]. rewrite IH. lia.
Qed.

(** Text produced by [HexBytes.hex()] reads back as the same bytes. *)
Lemma hexstr_to_bytes_hex (bs : list byte) :
  Hex.hexstr_to_bytes (Hex.hex bs) = Return bs.
Proof.
  unfold Hex.hexstr_to_bytes, Hex.hex.
  cbn [Hex.strip_0x String.length]. rewrite length_hexlify.
  replace (Nat.odd (S (S (2 * List.length bs)))) with false.
  - rewrite unhexlify_hexlify. reflexivity.
  - symmetry. rewrite Nat.odd_succ_succ, Nat.odd_mul. reflexivity.
Qed.

(** ** The sample environment keeps the signing law *)

Lemma length_pad (n : nat) (bs : list byte) :
  List.length (Sample.pad n bs) = n.
Proof.
  unfold Sample.pad. rewrite length_take_le; [reflexivity|].
  rewrite length_app, repeat_length. lia.
Qed.

Lemma sample_recovers_signer : recovers_signer Sample.externals.
Proof.
  intros m key _ Hrange.
  cbn [ec_recover ec_sign address_of_key key_in_range Sample.externals]
    in Hrange |- *.
  unfold Sample.ec_recover, Sample.ec_sign, Sample.address_of_key.
  unfold Sample.key_in_range in Hrange.
  apply negb_true_iff in Hrange.
  replace (List.length _ =? 65)%nat with true.
  2: { symmetry. apply Nat.eqb_eq.
       rewrite !length_app. unfold Sample.digest.
       rewrite !length_pad. reflexivity. }
  rewrite (take_app_length' _ _ 20) by (symmetry; apply length_pad).
  rewrite Hrange.
  rewrite drop_app_length' by (symmetry; apply length_pad).
  rewrite (take_app_length' _ _ 44) by (symmetry; apply length_pad).
  rewrite String.eqb_refl. reflexivity.
Qed.

(** ** Signing and verifying *)




(** Text that is not hexadecimal makes [validate_signature] raise, whatever
    the libraries do with bytes. *)
Lemma validate_signature_not_hex (E : Externals)
    (data signature signer_address : string) (e : exn) :
  Hex.hexstr_to_bytes signature = Raise e ->
  validate_signature data signature signer_address = Raise e.
Proof.
  intros Hhex. unfold validate_signature, recover_message.
  rewrite Hhex. reflexivity.
Qed.

(** C2, as the code has it.  [validate_signature] returns a boolean exactly
    when recovery from the signature returns an address, and the boolean says
    whether that address is the expected one; a signature that is no
    hexadecimal text, or whose bytes recovery rejects, raises the exception
    of the conversion or of the recovery. *)
Theorem validate_signature_outcome (E : Externals)
    (data signature signer_address : string) :
  (returns (validate_signature data signature signer_address) <->
   returns (recover_message (encode_defunct data) signature)) /\
  (forall a, recover_message (encode_defunct data) signature = Return a ->
     validate_signature data signature signer_address
     = Return (String.eqb signer_address a)) /\
  (forall e, Hex.hexstr_to_bytes signature = Raise e ->
     validate_signature data signature signer_address = Raise e) /\
  (forall bs e, Hex.hexstr_to_bytes signature = Return bs ->
     ec_recover (encode_defunct data) bs = Raise e ->
     validate_signature data signature signer_address = Raise e).
Proof.
  unfold validate_signature, recover_message, returns.
  repeat split.
  - intros [b Hb].
    destruct (Hex.hexstr_to_bytes signature) as [bs|e]; cbn [rbind] in *;
      [|discriminate].
    destruct (ec_recover (encode_defunct data) bs) as [a|e]; cbn [rbind] in *;
      [eauto|discriminate].
  - intros [a Ha]. rewrite Ha. cbn [rbind].
    destruct (String.eqb signer_address a); eauto.
  - intros a Ha. rewrite Ha. cbn [rbind].
    destruct (String.eqb signer_address a); reflexivity.
  - intros e He. rewrite He. reflexivity.
  - intros bs e Hbs He. rewrite Hbs. cbn [rbind]. rewrite He. reflexivity.
Qed.

Lemma validate_signature_outcome_witness :
  @validate_signature Sample.externals "John"
     (@sign_data Sample.externals "John" Sample.bob)
     (@address Sample.externals Sample.alice)
  = Return false /\
  @validate_signature Sample.externals "John" "0x00"
     (@address Sample.externals Sample.alice)
  = Raise BadSignature.
Proof.
  destruct (validate_signature_outcome Sample.externals "John"
              (@sign_data Sample.externals "John" Sample.bob)
              (@address Sample.externals Sample.alice))
    as (_ & Hreturn & _).
  destruct (validate_signature_outcome Sample.externals "John" "0x00"
              (@address Sample.externals Sample.alice))
    as (_ & _ & _ & Hraise).
  split.
  - apply (Hreturn (@address Sample.externals Sample.bob)).
    vm_compute. reflexivity.
  - apply (Hraise [x00]); reflexivity.
Defined.

(** C2, as stated, fails: on a signature that is no hexadecimal text the
    call raises and returns no boolean. *)
Lemma validate_signature_malformed_raises :
  @validate_signature Sample.externals "John" "zz"
     (@address Sample.externals Sample.alice)
  = Raise (ValueError "Non-hexadecimal digit found").
Proof. reflexivity. Qed.

(** ** Writing a passport *)

(** C3, on the code.  Whatever fields and accounts [create_health_passport]
    is called with, it raises [NameError] on the name [allow_only_signed],
    which neither the method nor the module binds, and the world is as
    before: nothing was transacted and nothing printed. *)
Theorem create_health_passport_raises_NameError (E : Externals)
    (self : HealthPass) (health_dict : Dict.t string)
    (issuer_account passport_account : Account) (w : World) :
  create_health_passport self health_dict issuer_account passport_account w
  = (Raise (NameError "allow_only_signed"), w).
Proof. reflexivity. Qed.

(** ** Validating a record *)

(** C9. An empty signature dictionary validates, whatever the plain text
    and the expected signer are, and nothing is printed. *)
Theorem validate_data_dict_empty (E : Externals)
    (plaintext_dict : Dict.t string) (signer_address : string) (w : World) :
  validate_data_dict plaintext_dict [] signer_address w = (Return true, w).
Proof. reflexivity. Qed.

(** One turn of the loop of [validate_data_dict]. *)
Lemma validate_data_dict_cons (E : Externals) (plaintext_dict : Dict.t string)
    (key data_signature : string) (rest : Dict.t string)
    (signer_address : string) (w : World) :
  validate_data_dict plaintext_dict ((key, data_signature) :: rest)
                     signer_address w =
  match Dict.get plaintext_dict key with
  | Raise e => (Raise e, w)
  | Return data =>
      match validate_signature data data_signature signer_address with
      | Raise e => (Raise e, w)
      | Return true => validate_data_dict plaintext_dict rest signer_address w
      | Return false =>
          (Return false,
           with_stdout (fun out => out ++ [mismatch_warning key]) w)
      end
  end.
Proof.
  cbn [validate_data_dict]. unfold bind at 1, lift at 1.
  destruct (Dict.get plaintext_dict key) as [data|e]; [|reflexivity].
  unfold bind at 1, lift at 1.
  destruct (validate_signature data data_signature signer_address)
    as [[|]|e]; reflexivity.
Qed.

(** Entries that verify are passed over. *)
Lemma validate_data_dict_skip (E : Externals) (plaintext_dict : Dict.t string)
    (before rest : Dict.t string) (signer_address : string) (w : World) :
  Forall (verifies plaintext_dict signer_address) before ->
  validate_data_dict plaintext_dict (before ++ rest) signer_address w
  = validate_data_dict plaintext_dict rest signer_address w.
Proof.
  induction 1 as [|[key sig] before (data & Hget & Hval) _ IH];
    [reflexivity|].
  cbn [fst snd] in Hget, Hval.
  change (((key, sig) :: before) ++ rest)
    with ((key, sig) :: (before ++ rest)).
  rewrite validate_data_dict_cons, Hget, Hval. exact IH.
Qed.

Lemma Dict_get_missing {V} (d : Dict.t V) (key : string) :
  ~ In key (Dict.keys d) -> Dict.get d key = Raise (KeyError key).
Proof.
  induction d as [|[k v] d IH]; [reflexivity|].
  cbn [Dict.keys map fst In Dict.get]. intros Hnot.
  destruct (String.eqb_spec k key) as [->|Hne].
  - exfalso. apply Hnot. left. reflexivity.
  - apply IH. intros Hin. apply Hnot. right. exact Hin.
Qed.

(** The code against the validator of the specification: the boolean says
    whether the validator succeeds, and the field that the validator names
    is in the warning that the code prints. *)
Lemma validate_data_dict_validateAll (E : Externals)
    (plaintext_dict signature_dict : Dict.t string) (signer_address : string)
    (w : World) :
  validate_data_dict plaintext_dict signature_dict signer_address w =
  match validateAll plaintext_dict signature_dict signer_address with
  | Return (inl _) => (Return true, w)
  | Return (inr field) =>
      (Return false, with_stdout (fun out => out ++ [mismatch_warning field]) w)
  | Raise e => (Raise e, w)
  end.
Proof.
  induction signature_dict as [|[key sig] rest IH]; [reflexivity|].
  rewrite validate_data_dict_cons. cbn [validateAll].
  destruct (Dict.get plaintext_dict key) as [data|e]; [|reflexivity].
  cbn [rbind].
  destruct (validate_signature data sig signer_address) as [[|]|e];
    cbn [rbind]; [exact IH|reflexivity|reflexivity].
Qed.

(** C4, as the code has it.  Fields are checked in the order of the
    signature dictionary.  When every entry verifies the result is [True]
    and nothing is printed.  At the first entry that does not verify, the
    entries before it having verified, the loop stops whatever follows: the
    result is [False] and one line is printed, the warning that names the
    field. *)
Theorem validate_data_dict_first_mismatch (E : Externals)
    (plaintext_dict : Dict.t string) (signer_address : string) (w : World) :
  (forall signature_dict,
     Forall (verifies plaintext_dict signer_address) signature_dict ->
     validate_data_dict plaintext_dict signature_dict signer_address w
     = (Return true, w)) /\
  (forall before key data_signature after,
     Forall (verifies plaintext_dict signer_address) before ->
     mismatches plaintext_dict signer_address (key, data_signature) ->
     validate_data_dict plaintext_dict
       (before ++ (key, data_signature) :: after) signer_address w
     = (Return false,
        with_stdout (fun out => out ++ [mismatch_warning key]) w)).
Proof.
  split.
  - intros signature_dict Hall.
    rewrite <- (app_nil_r signature_dict).
    rewrite validate_data_dict_skip by exact Hall. reflexivity.
  - intros before key sig after Hall (data & Hget & Hval).
    cbn [fst snd] in Hget, Hval.
    rewrite validate_data_dict_skip by exact Hall.
    rewrite validate_data_dict_cons, Hget, Hval. reflexivity.
Qed.

(** C5, as the code has it.  When the entries before a field that the plain
    text lacks all verify, the lookup of that field raises [KeyError] with
    the field as its argument, whatever follows, and nothing is printed. *)
Theorem validate_data_dict_missing_field (E : Externals)
    (plaintext_dict before : Dict.t string) (key data_signature : string)
    (after : Dict.t string) (signer_address : string) (w : World) :
  Forall (verifies plaintext_dict signer_address) before ->
  ~ In key (Dict.keys plaintext_dict) ->
  validate_data_dict plaintext_dict
    (before ++ (key, data_signature) :: after) signer_address w
  = (Raise (KeyError key), w).
Proof.
  intros Hall Hmissing.
  rewrite validate_data_dict_skip by exact Hall.
  rewrite validate_data_dict_cons, (Dict_get_missing _ _ Hmissing).
  reflexivity.
Qed.

Ltac settle_entry :=
  eexists; split; [reflexivity | vm_compute; reflexivity].

Ltac settle_entries :=
  repeat (constructor; [settle_entry|]); constructor.

Lemma validate_data_dict_first_mismatch_witness :
  @validate_data_dict Sample.externals health_data Sample.signed_health_data
     (@address Sample.externals Sample.alice) Sample.quiet
  = (Return true, Sample.quiet) /\
  @validate_data_dict Sample.externals health_data Sample.swapped_last_name
     (@address Sample.externals Sample.alice) Sample.quiet
  = (Return false,
     with_stdout (fun out => out ++ [mismatch_warning "Last Name"])
                 Sample.quiet).
Proof.
  destruct (validate_data_dict_first_mismatch Sample.externals health_data
              (@address Sample.externals Sample.alice) Sample.quiet)
    as [Hall Hfirst].
  split.
  - apply Hall. unfold Sample.signed_health_data. settle_entries.
  - apply (Hfirst [("First Name", Sample.signature_of "John")] "Last Name"
                  (Sample.signature_of "John")
                  [("Date of Birth", Sample.signature_of "10/5/1970")]).
    + settle_entries.
    + settle_entry.
Defined.

(** C4, as stated, fails: the value returned on a mismatch is [False] for
    whichever field fails, so it does not name the field.  Of two records,
    one with the signature of the last name replaced and one with that of
    the date of birth replaced, the validator of the specification names
    the respective field and the code returns the same value. *)
Lemma validate_data_dict_returns_no_field_name :
  fst (@validate_data_dict Sample.externals health_data
         Sample.swapped_last_name
         (@address Sample.externals Sample.alice) Sample.quiet)
  = Return false /\
  fst (@validate_data_dict Sample.externals health_data
         Sample.swapped_date_of_birth
         (@address Sample.externals Sample.alice) Sample.quiet)
  = Return false /\
  @validateAll Sample.externals health_data Sample.swapped_last_name
     (@address Sample.externals Sample.alice)
  = Return (inr "Last Name") /\
  @validateAll Sample.externals health_data Sample.swapped_date_of_birth
     (@address Sample.externals Sample.alice)
  = Return (inr "Date of Birth").
Proof. repeat split; vm_compute; reflexivity. Qed.

Lemma validate_data_dict_missing_field_witness :
  @validate_data_dict Sample.externals [("First Name", "John")]
     Sample.with_blood_type
     (@address Sample.externals Sample.alice) Sample.quiet
  = (Raise (KeyError "Blood Type"), Sample.quiet).
Proof.
  apply (validate_data_dict_missing_field Sample.externals
           [("First Name", "John")]
           [("First Name", Sample.signature_of "John")] "Blood Type"
           (Sample.signature_of "A") []).
  - settle_entries.
  - cbn. intros [H|[]]. discriminate H.
Defined.

(** C5, as stated, fails: a field that the plain text lacks goes unnoticed
    when an entry before it does not verify; the result is [False] and no
    exception is raised. *)
Lemma validate_data_dict_mismatch_hides_missing_field :
  In "Blood Type" (Dict.keys Sample.with_blood_type_after_mismatch) /\
  Dict.get [("First Name", "John")] "Blood Type"
  = Raise (KeyError "Blood Type") /\
  @validate_data_dict Sample.externals [("First Name", "John")]
     Sample.with_blood_type_after_mismatch
     (@address Sample.externals Sample.alice) Sample.quiet
  = (Return false,
     with_stdout (fun out => out ++ [mismatch_warning "First Name"])
                 Sample.quiet).
Proof.
  split; [right; left; reflexivity|].
  split; [reflexivity|]. vm_compute. reflexivity.
Qed.

(** ** Returning the balance *)

Lemma ether_pos : Z.pos (Z.to_pos ether) = ether.
Proof. reflexivity. Qed.

(** An amount in wei survives the passage through ether. *)
Lemma toWei_fromWei (wei : Z) :
  0 <= wei <= MAX_WEI ->
  exists amount, fromWei wei = Return amount /\ toWei amount = Return wei.
Proof.
  intros [Hlo Hhi]. unfold fromWei.
  destruct (Z.eqb_spec wei 0) as [->|Hne].
  { exists (0 # 1)%Q. split; reflexivity. }
  replace ((wei <? 0) || (MAX_WEI <? wei)) with false.
  2: { symmetry. apply orb_false_intro; [apply Z.ltb_ge|apply Z.ltb_ge]; lia. }
  eexists. split; [reflexivity|].
  unfold toWei, Qeq_bool, Qle_bool, Qmult, inject_Z. cbn [Qnum Qden].
  rewrite Pos.mul_1_r, ether_pos.
  assert (Hether : 0 < ether) by reflexivity.
  replace (wei * 1 =? 0 * ether) with false.
  2: { symmetry. apply Z.eqb_neq. lia. }
  replace (0 * ether <=? wei * ether * 1) with true.
  2: { symmetry. apply Z.leb_le. nia. }
  replace (wei * ether * 1 <=? MAX_WEI * ether) with true.
  2: { symmetry. apply Z.leb_le. nia. }
  cbn [andb]. rewrite Z.quot_mul by lia. reflexivity.
Qed.

(** C7, as the code has it.  [send_account_balance] reads the balance of
    the source.  A balance of zero is reported and nothing is sent.  A
    balance that is not zero and exceeds the fee of 21000 gas at the
    generated price by between 0 and 2^256 - 1 wei is returned less that
    fee: one transaction from source to destination is handed to the node,
    with that value and 21000 gas; it carries the generated gas price when
    that price is not zero, and no gas price when it is zero. *)
Theorem send_account_balance_returns_remainder (E : Externals)
    (self : HealthPass) (from_address to_address : string) (w : World) :
  (balance_of w from_address = 0 ->
   send_account_balance self from_address to_address w
   = (Return tt, with_stdout (fun out => out ++ ["No eth to send!"]) w)) /\
  (balance_of w from_address <> 0 ->
   0 <= balance_of w from_address - 21000 * gas_price w <= MAX_WEI ->
   exists w',
     send_account_balance self from_address to_address w = (Return tt, w') /\
     sent w' = sent w ++
       [ {| tx_from := from_address; tx_to := to_address;
            tx_value := balance_of w from_address - 21000 * gas_price w;
            tx_chainId := 3;
            tx_nonce := default 0 (transaction_count w !! from_address);
            tx_gasPrice :=
              if gas_price w =? 0 then None else Some (gas_price w);
            tx_gas := Some 21000 |} ]).
Proof.
  split.
  - intros Hzero. unfold send_account_balance, get_balance, bind, gets.
    rewrite Hzero. reflexivity.
  - intros Hnonzero Hrange.
    destruct (toWei_fromWei _ Hrange) as (amount & Hfrom & Hto).
    unfold send_account_balance, get_balance, bind at 1, gets at 1.
    destruct (Z.eqb_spec (balance_of w from_address) 0) as [Heq|_];
      [contradiction|].
    unfold bind at 1, gets at 1. unfold bind at 1, lift at 1.
    rewrite Hfrom. unfold transfer_eth, bind at 1, lift at 1.
    rewrite Hto. eexists. split; reflexivity.
Qed.

Lemma send_account_balance_returns_remainder_witness :
  (exists w',
    @send_account_balance Sample.externals Sample.self
       (@address Sample.externals Sample.bob)
       (@address Sample.externals Sample.alice) Sample.funded
    = (Return tt, w') /\
    sent w' =
      [ {| tx_from := @address Sample.externals Sample.bob;
           tx_to := @address Sample.externals Sample.alice;
           tx_value := 10 ^ 17 - 21000 * 10 ^ 9;
           tx_chainId := 3; tx_nonce := 0;
           tx_gasPrice := Some (10 ^ 9); tx_gas := Some 21000 |} ]) /\
  (exists w',
    @send_account_balance Sample.externals Sample.self
       (@address Sample.externals Sample.bob)
       (@address Sample.externals Sample.alice) Sample.unpriced
    = (Return tt, w') /\
    sent w' =
      [ {| tx_from := @address Sample.externals Sample.bob;
           tx_to := @address Sample.externals Sample.alice;
           tx_value := 10 ^ 17;
           tx_chainId := 3; tx_nonce := 0;
           tx_gasPrice := None; tx_gas := Some 21000 |} ]).
Proof.
  split.
  - apply (proj2 (send_account_balance_returns_remainder Sample.externals
                    Sample.self (@address Sample.externals Sample.bob)
                    (@address Sample.externals Sample.alice) Sample.funded)).
    + vm_compute. discriminate.
    + vm_compute. split; discriminate.
  - apply (proj2 (send_account_balance_returns_remainder Sample.externals
                    Sample.self (@address Sample.externals Sample.bob)
                    (@address Sample.externals Sample.alice)
                    Sample.unpriced)).
    + vm_compute. discriminate.
    + vm_compute. split; discriminate.
Defined.

(** C7, as stated, fails: a balance that is not zero and does not cover the
    fee is not transferred less the fee; the conversion of the negative
    difference raises and nothing is sent. *)
Lemma send_account_balance_below_fee_raises :
  balance_of Sample.dust (@address Sample.externals Sample.bob) = 10 ^ 13 /\
  21000 * gas_price Sample.dust = 21 * 10 ^ 12 /\
  @send_account_balance Sample.externals Sample.self
     (@address Sample.externals Sample.bob)
     (@address Sample.externals Sample.alice) Sample.dust
  = (Raise (ValueError "value must be between 1 and 2**256 - 1"),
     Sample.dust).
Proof. repeat split; vm_compute; reflexivity. Qed.

(** ** Reading records back *)

(** What [get_health_passport] makes of a tuple that starts with text:
    the keys are paired with the elements as far as both last, and the
    first element is replaced by its decoding. *)
Lemma get_health_passport_pairs (E : Externals) (w : World)
    (passport_address payload : string) (others : list value) :
  returnPassport w passport_address = Return (VStr payload :: others) ->
  get_health_passport passport_address w =
  match json_loads payload with
  | Return fields =>
      (Return (("healthJson", fields)
               :: zip (tail HEALTH_PASSPORT_STRUCT) others), w)
  | Raise e => (Raise e, w)
  end.
Proof.
  intros Hview. unfold get_health_passport.
  unfold bind at 1, lift at 1. cbn [load_global].
  unfold bind at 1. unfold bind at 1, gets at 1, lift at 1. rewrite Hview.
  destruct others as [|v1 [|v2 [|v3 [|v4 others]]]];
    unfold bind, lift, ret; cbn;
    destruct (json_loads payload); reflexivity.
Qed.

Lemma get_credential_pairs (E : Externals) (w : World)
    (credential_hash : value) (payload : string) (others : list value) :
  returnCredential w credential_hash = Return (VStr payload :: others) ->
  get_credential credential_hash w =
  match json_loads payload with
  | Return fields =>
      (Return (("credentialJson", fields)
               :: zip (tail CREDENTIAL_STRUCT) others), w)
  | Raise e => (Raise e, w)
  end.
Proof.
  intros Hview. unfold get_credential.
  unfold bind at 1, lift at 1. cbn [load_global].
  unfold bind at 1. unfold bind at 1, gets at 1, lift at 1. rewrite Hview.
  destruct others as [|v1 [|v2 [|v3 others]]];
    unfold bind, lift, ret; cbn;
    destruct (json_loads payload); reflexivity.
Qed.

(** C8. A tuple of five elements returned by [returnPassport] is decoded
    in the fixed order of the passport structure, a tuple of four returned
    by [returnCredential] in the fixed order of the credential structure;
    the first element, the text of the fields, is replaced by what
    [json.loads] makes of it, and a text that does not decode raises the
    exception of the decoder. *)
Theorem records_decoded_in_fixed_order (E : Externals) (w : World) :
  (forall (passport_address payload : string)
          (issuerAddress allowOnlySigned credentialRefs isActive : value),
     returnPassport w passport_address
     = Return [VStr payload; issuerAddress; allowOnlySigned; credentialRefs;
               isActive] ->
     get_health_passport passport_address w =
     match json_loads payload with
     | Return fields =>
         (Return [("healthJson", fields); ("issuerAddress", issuerAddress);
                  ("allowOnlySigned", allowOnlySigned);
                  ("credentialHashes", credentialRefs);
                  ("isActive", isActive)], w)
     | Raise e => (Raise e, w)
     end) /\
  (forall (credential_hash : value) (payload : string)
          (issuerAddress passportRef isValid : value),
     returnCredential w credential_hash
     = Return [VStr payload; issuerAddress; passportRef; isValid] ->
     get_credential credential_hash w =
     match json_loads payload with
     | Return fields =>
         (Return [("credentialJson", fields);
                  ("issuerAddress", issuerAddress);
                  ("passportAddress", passportRef); ("isValid", isValid)], w)
     | Raise e => (Raise e, w)
     end).
Proof.
  split; intros.
  - rewrite (get_health_passport_pairs E w _ payload _ H). reflexivity.
  - rewrite (get_credential_pairs E w _ payload _ H). reflexivity.
Qed.

(** C10, as the code has it.  A tuple that starts with the text of the
    fields and is shorter than the structure does not fail for its length:
    the record holds the leading keys, as many as the tuple has elements,
    and lacks the others. *)
Theorem short_tuple_lacks_trailing_keys (E : Externals) (w : World) :
  (forall (passport_address payload : string) (others : list value)
          (fields : value),
     returnPassport w passport_address = Return (VStr payload :: others) ->
     (List.length others < 4)%nat ->
     json_loads payload = Return fields ->
     exists record,
       get_health_passport passport_address w = (Return record, w) /\
       record = ("healthJson", fields)
                :: zip (tail HEALTH_PASSPORT_STRUCT) others /\
       Dict.keys record
       = take (S (List.length others)) HEALTH_PASSPORT_STRUCT) /\
  (forall (credential_hash : value) (payload : string) (others : list value)
          (fields : value),
     returnCredential w credential_hash = Return (VStr payload :: others) ->
     (List.length others < 3)%nat ->
     json_loads payload = Return fields ->
     exists record,
       get_credential credential_hash w = (Return record, w) /\
       record = ("credentialJson", fields)
                :: zip (tail CREDENTIAL_STRUCT) others /\
       Dict.keys record
       = take (S (List.length others)) CREDENTIAL_STRUCT).
Proof.
  split; intros ? payload others fields Hview Hshort Hjson; eexists.
  - rewrite (get_health_passport_pairs E w _ payload _ Hview), Hjson.
    split; [reflexivity|]. split; [reflexivity|].
    destruct others as [|v1 [|v2 [|v3 [|v4 others]]]];
      [reflexivity..|cbn in Hshort; lia].
  - rewrite (get_credential_pairs E w _ payload _ Hview), Hjson.
    split; [reflexivity|]. split; [reflexivity|].
    destruct others as [|v1 [|v2 [|v3 others]]];
      [reflexivity..|cbn in Hshort; lia].
Qed.

Lemma records_decoded_in_fixed_order_witness :
  @get_health_passport Sample.externals
     (@address Sample.externals Sample.bob)
     (Sample.serving Sample.passport_tuple Sample.credential_tuple)
  = (Return [("healthJson", VDict []);
             ("issuerAddress", VStr (@address Sample.externals Sample.alice));
             ("allowOnlySigned", VBool false);
             ("credentialHashes", VList [VBytes (Sample.key "c"%byte)]);
             ("isActive", VBool true)],
     Sample.serving Sample.passport_tuple Sample.credential_tuple) /\
  @get_credential Sample.externals (VBytes (Sample.key "c"%byte))
     (Sample.serving Sample.passport_tuple Sample.credential_tuple)
  = (Return [("credentialJson", VDict []);
             ("issuerAddress", VStr (@address Sample.externals Sample.alice));
             ("passportAddress", VStr (@address Sample.externals Sample.bob));
             ("isValid", VBool true)],
     Sample.serving Sample.passport_tuple Sample.credential_tuple).
Proof.
  destruct (records_decoded_in_fixed_order Sample.externals
              (Sample.serving Sample.passport_tuple Sample.credential_tuple))
    as [Hpassport Hcredential].
  split.
  - apply (Hpassport (@address Sample.externals Sample.bob) "{}").
    reflexivity.
  - apply (Hcredential (VBytes (Sample.key "c"%byte)) "{}"). reflexivity.
Defined.

Lemma short_tuple_lacks_trailing_keys_witness :
  (exists record,
     @get_health_passport Sample.externals
        (@address Sample.externals Sample.bob)
        (Sample.serving (take 2 Sample.passport_tuple)
                        (take 3 Sample.credential_tuple))
     = (Return record,
        Sample.serving (take 2 Sample.passport_tuple)
                       (take 3 Sample.credential_tuple)) /\
     Dict.keys record = ["healthJson"; "issuerAddress"]) /\
  (exists record,
     @get_credential Sample.externals (VBytes (Sample.key "c"%byte))
        (Sample.serving (take 2 Sample.passport_tuple)
                        (take 3 Sample.credential_tuple))
     = (Return record,
        Sample.serving (take 2 Sample.passport_tuple)
                       (take 3 Sample.credential_tuple)) /\
     Dict.keys record
     = ["credentialJson"; "issuerAddress"; "passportAddress"]).
Proof.
  destruct (short_tuple_lacks_trailing_keys Sample.externals
              (Sample.serving (take 2 Sample.passport_tuple)
                              (take 3 Sample.credential_tuple)))
    as [Hpassport Hcredential].
  split.
  - destruct (Hpassport (@address Sample.externals Sample.bob) "{}"
                [VStr (@address Sample.externals Sample.alice)] (VDict []))
      as (record & Hget & _ & Hkeys);
      [reflexivity | cbn; lia | reflexivity |].
    exists record. split; [exact Hget | exact Hkeys].
  - destruct (Hcredential (VBytes (Sample.key "c"%byte)) "{}"
                [VStr (@address Sample.externals Sample.alice);
                 VStr (@address Sample.externals Sample.bob)] (VDict []))
      as (record & Hget & _ & Hkeys);
      [reflexivity | cbn; lia | reflexivity |].
    exists record. split; [exact Hget | exact Hkeys].
Defined.

(** C10, as stated, fails: an empty tuple is shorter than the structure,
    and on it the lookup of the first key raises [KeyError]. *)
Lemma empty_tuple_raises_KeyError :
  @get_health_passport Sample.externals
     (@address Sample.externals Sample.bob) (Sample.serving [] [])
  = (Raise (KeyError "healthJson"), Sample.serving [] []) /\
  @get_credential Sample.externals (VBytes (Sample.key "c"%byte))
     (Sample.serving [] [])
  = (Raise (KeyError "credentialJson"), Sample.serving [] []).
Proof. split; reflexivity. Qed.

(** ** Fund recovery in the script *)

(** Statements that leave a component of the world alone. *)

Lemma keeps_ret {A X} (f : World -> X) (a : A) : keeps f (ret a).
Proof. intros w. reflexivity. Qed.

Lemma keeps_raise {A X} (f : World -> X) (e : exn) : keeps f (@raise A e).
Proof. intros w. reflexivity. Qed.

Lemma keeps_lift {A X} (f : World -> X) (r : result A) : keeps f (lift r).
Proof. intros w. reflexivity. Qed.

Lemma keeps_gets {A X} (f : World -> X) (g : World -> A) : keeps f (gets g).
Proof. intros w. reflexivity. Qed.

Lemma keeps_modify {X} (f : World -> X) (g : World -> World) :
  (forall w, f (g w) = f w) -> keeps f (modify g).
Proof. intros Hg w. apply Hg. Qed.

Lemma keeps_bind {A B X} (f : World -> X) (c : M A) (k : A -> M B) :
  keeps f c -> (forall a, keeps f (k a)) -> keeps f (bind c k).
Proof.
  intros Hc Hk w. unfold bind. specialize (Hc w).
  destruct (c w) as [[a|e] w']; cbn [snd] in *.
  - rewrite Hk. exact Hc.
  - exact Hc.
Qed.

Lemma keeps_try {A X} (f : World -> X) (body : M A) (handler : exn -> M A) :
  keeps f body -> (forall e, keeps f (handler e)) ->
  keeps f (try_except_Exception body handler).
Proof.
  intros Hb Hh w. unfold try_except_Exception. specialize (Hb w).
  destruct (body w) as [[a|e] w']; cbn [snd] in *; [exact Hb|].
  destruct (is_Exception e); cbn [snd]; [rewrite Hh|]; exact Hb.
Qed.


Lemma keeps_print {X} (f : World -> X) (line : string) :
  (forall g w, f (with_stdout g w) = f w) -> keeps f (print line).
Proof. intros Hf w. apply Hf. Qed.

Lemma keeps_node_call {X} (f : World -> X) :
  (forall g w, f (with_faults g w) = f w) -> keeps f node_call.
Proof.
  intros Hf w. unfold node_call.
  destruct (faults w) as [|[e|] rest]; cbn [snd]; auto.
Qed.

Lemma keeps_run {A X} (f : World -> X) {c : M A} {w w' : World}
    {r : result A} :
  c w = (r, w') -> keeps f c -> f w' = f w.
Proof. intros Hrun Hc. specialize (Hc w). rewrite Hrun in Hc. exact Hc. Qed.

Ltac frame_step :=
  lazymatch goal with
  | |- keeps _ (ret _) => apply keeps_ret
  | |- keeps _ (raise _) => apply keeps_raise
  | |- keeps _ (lift _) => apply keeps_lift
  | |- keeps _ (gets _) => apply keeps_gets
  | |- keeps _ (print _) =>
      apply keeps_print; solve [assumption | intros; reflexivity]
  | |- keeps _ node_call => apply keeps_node_call; intros; reflexivity
  | |- keeps _ (modify _) =>
      apply keeps_modify; solve [intros; reflexivity | intros; auto]
  | |- keeps _ (bind _ _) => apply keeps_bind; [|intros]
  | |- keeps _ (try_except_Exception _ _) => apply keeps_try; [|intros]
  | |- keeps _ (if ?b then _ else _) => destruct b
  end.

Ltac frame := repeat frame_step.

Lemma validate_data_dict_keeps_invoked (E : Externals)
    (plaintext_dict signature_dict : Dict.t string) (signer_address : string) :
  keeps invoked (validate_data_dict plaintext_dict signature_dict signer_address).
Proof.
  induction signature_dict as [|[key sig] rest IH];
    cbn [validate_data_dict]; frame. exact IH.
Qed.

Lemma guarded_block_keeps_invoked (E : Externals) (cfg : Config)
    (issuer_account passport_account : Account) :
  keeps invoked (guarded_block cfg issuer_account passport_account).
Proof.
  unfold guarded_block, authorize_issuer, create_health_passport,
    create_credential, get_health_passport, get_credential,
    initialize_contract, load_interface, compile_contract, deploy_contract,
    attach_contract, initialize_web3, transact,
    waitForTransactionReceipt, calculate_transaction_cost.
  frame. all: apply validate_data_dict_keeps_invoked.
Qed.

Lemma send_account_balance_keeps_invoked (E : Externals) (self : HealthPass)
    (from_address to_address : string) :
  keeps invoked (send_account_balance self from_address to_address).
Proof.
  unfold send_account_balance, get_balance, transfer_eth, send_transaction.
  frame.
Qed.

Lemma create_new_account_keeps (E : Externals) {X} (f : World -> X) :
  (forall g w, f (with_drawn g w) = f w) -> keeps f create_new_account.
Proof. intros Hf. unfold create_new_account. frame. Qed.

Lemma bind_Return_inv {A B} (c : M A) (k : A -> M B) (w w' : World) (b : B) :
  bind c k w = (Return b, w') ->
  exists a w0, c w = (Return a, w0) /\ k a w0 = (Return b, w').
Proof.
  unfold bind. destruct (c w) as [[a|e] w0]; [eauto|discriminate].
Qed.

Lemma toWei_seed : toWei (5 # 100) = Return (5 * 10 ^ 16).
Proof. reflexivity. Qed.

Lemma seed_transfer (E : Externals) (self : HealthPass)
    (owner issuer : Account) (w : World) :
  exists w',
    transfer_eth self (address owner) (address issuer) (5 # 100) None None w
    = (Return tt, w') /\
    sent w' = sent w ++ [seed_transaction w owner issuer] /\
    invoked w' = invoked w.
Proof.
  unfold transfer_eth. unfold bind at 1, lift at 1. rewrite toWei_seed.
  eexists. split; [reflexivity|]. split; reflexivity.
Qed.

Lemma get_account_balance_keeps {X} (f : World -> X) (a : string) :
  keeps f (get_account_balance a).
Proof. unfold get_account_balance, get_balance. frame. Qed.

(** The set-up of the accounts funds the issuer when no issuer key is
    configured, and only then. *)
Lemma prelude_outcome (E : Externals) (cfg : Config) (w w1 : World)
    (owner issuer passport : Account) (recover_eth : bool) :
  prelude cfg w = (Return (owner, issuer, passport, recover_eth), w1) ->
  recover_eth = String.eqb (ISSUER_PRIVATE_KEY cfg) "" /\
  invoked w1 = invoked w ++
    (if recover_eth then [Seed (address owner) (address issuer)] else []) /\
  sent w1 = sent w ++
    (if recover_eth then [seed_transaction w owner issuer] else []).
Proof.
  intros H. unfold prelude in H.
  apply bind_Return_inv in H as ([] & wa & Ha & H).
  apply bind_Return_inv in H as (owner' & wb & Hb & H).
  apply bind_Return_inv in H as ([] & wc & Hc & H).
  apply bind_Return_inv in H as (balance & wd & Hd & H).
  apply bind_Return_inv in H as ([] & we & He & H).
  apply bind_Return_inv in H as ([issuer' recover'] & wf & Hf & H).
  apply bind_Return_inv in H as (passport' & wg & Hg & H).
  cbn [fst snd] in H. injection H as <- <- <- <- <-.
  injection Ha as <-. injection Hb as _ <-. injection Hc as <-.
  assert (Hkeep : forall X (f : World -> X),
             (forall g w, f (with_stdout g w) = f w) ->
             (forall g w, f (with_drawn g w) = f w) ->
             f we = f w /\ f wg = f wf) by
    (intros X f Hout Hdrawn; split;
     [ transitivity (f wd);
       [ destruct (negb _) in He; injection He as <-;
         [apply Hout | reflexivity]
       | rewrite (keeps_run f Hd (get_account_balance_keeps _ _));
         apply Hout ]
     | apply (keeps_run f Hg);
       destruct (String.eqb _ _); unfold create_new_account; frame ]).
  destruct (Hkeep _ invoked ltac:(reflexivity) ltac:(reflexivity))
    as [Hinv_e ->].
  destruct (Hkeep _ sent ltac:(reflexivity) ltac:(reflexivity))
    as [Hsent_e ->].
  destruct (Hkeep _ transaction_count ltac:(reflexivity) ltac:(reflexivity))
    as [Hcount_e _].
  clear Hkeep.
  destruct (String.eqb (ISSUER_PRIVATE_KEY cfg) "").
  - apply bind_Return_inv in Hf as ([] & wh & Hh & Hf).
    apply bind_Return_inv in Hf as (issuer'' & wi & Hi & Hf).
    apply bind_Return_inv in Hf as ([] & wj & Hj & Hf).
    apply bind_Return_inv in Hf as ([] & wk & Hk & Hf).
    injection Hf as <- <- <-. injection Hk as <-. injection Hh as <-.
    destruct (seed_transfer E (health_pass cfg) owner' issuer'' wi)
      as (wj' & Hrun & Hsent & Hinv).
    rewrite Hrun in Hj. injection Hj as <-.
    split; [reflexivity|].
    pose proof (keeps_run transaction_count Hi
                  (create_new_account_keeps E transaction_count ltac:(reflexivity)))
      as Hi3.
    pose proof (keeps_run invoked Hi
                  (create_new_account_keeps E invoked ltac:(reflexivity)))
      as Hi1.
    pose proof (keeps_run sent Hi
                  (create_new_account_keeps E sent ltac:(reflexivity)))
      as Hi2.
    cbn [invoked sent transaction_count with_invoked with_stdout] in *.
    rewrite Hinv, Hsent, Hi1, Hi2, Hinv_e, Hsent_e.
    unfold seed_transaction. rewrite Hi3, Hcount_e. split; reflexivity.
  - apply bind_Return_inv in Hf as (issuer'' & wh & Hh & Hf).
    injection Hf as <- <- <-. injection Hh as _ <-.
    split; [reflexivity|].
    rewrite Hinv_e, Hsent_e, !app_nil_r. split; reflexivity.
Qed.



(** What follows the [try]: one recovery when the flag is set, none
    otherwise, whatever the recovery itself does. *)
Lemma recovery_tail (E : Externals) (self : HealthPass)
    (owner issuer : Account) (recover_eth : bool) (w : World) :
  invoked (snd (((if recover_eth
                  then
                    modify (with_invoked (fun l =>
                      l ++ [Recover (address issuer) (address owner)])) ;;
                    send_account_balance self (address issuer) (address owner)
                  else ret tt) ;;
                 print "done!") w))
  = invoked w ++
    (if recover_eth then [Recover (address issuer) (address owner)] else []).
Proof.
  destruct recover_eth.
  - unfold bind at 1. unfold bind at 1, modify at 1.
    destruct (send_account_balance self (address issuer) (address owner) _)
      as [[[]|e] w'] eqn:Hsend;
      cbn [snd print modify with_stdout invoked];
      rewrite (keeps_run invoked Hsend
                 (send_account_balance_keeps_invoked E self _ _));
      reflexivity.
  - cbn. rewrite app_nil_r. reflexivity.
Qed.

(** Statements that raise ordinary exceptions on a benign node. *)

Lemma tame_ret {A} (a : A) : tame (ret a).
Proof. intros w Hw. split; [intros e He; discriminate He | exact Hw]. Qed.

Lemma tame_gets {A} (g : World -> A) : tame (gets g).
Proof. intros w Hw. split; [intros e He; discriminate He | exact Hw]. Qed.

Lemma tame_lift {A} (r : result A) : ordinary r -> tame (lift r).
Proof. intros Hr w Hw. split; [exact Hr | exact Hw]. Qed.

Lemma tame_modify (g : World -> World) :
  (forall w, faults (g w) = faults w) -> tame (modify g).
Proof.
  intros Hg w Hw. split; [intros e He; discriminate He|].
  unfold benign. cbn [snd modify]. rewrite Hg. exact Hw.
Qed.

Lemma tame_print (line : string) : tame (print line).
Proof. apply tame_modify. reflexivity. Qed.

Lemma tame_node_call : tame node_call.
Proof.
  intros w Hw. unfold node_call, benign in *.
  destruct (faults w) as [|[e|] rest] eqn:Hfaults; cbn [fst snd].
  - split; [intros e He; discriminate He|]. rewrite Hfaults. constructor.
  - inversion Hw as [|? ? Hhead Hrest]; subst. split.
    + intros e' He'. injection He' as <-. apply Hhead. reflexivity.
    + exact Hrest.
  - inversion Hw as [|? ? Hhead Hrest]; subst.
    split; [intros e He; discriminate He | exact Hrest].
Qed.

Lemma tame_bind {A B} (c : M A) (k : A -> M B) :
  tame c -> (forall a, tame (k a)) -> tame (bind c k).
Proof.
  intros Hc Hk w Hw. unfold bind. destruct (Hc w Hw) as [Hr Hw'].
  destruct (c w) as [[a|e] w']; cbn [fst snd] in *.
  - apply Hk. exact Hw'.
  - split; [|exact Hw'].
    intros e' He'. injection He' as <-. apply Hr. reflexivity.
Qed.

Lemma fromWei_ordinary (number : Z) : ordinary (fromWei number).
Proof.
  intros e. unfold fromWei.
  destruct (number =? 0); [discriminate|].
  destruct ((number <? 0) || (MAX_WEI <? number)); [|discriminate].
  intros He. injection He as <-. reflexivity.
Qed.

Lemma tame_raise {A} (e : exn) : is_Exception e = true -> tame (@raise A e).
Proof.
  intros He w Hw. split; [|exact Hw].
  intros e' He'. injection He' as <-. exact He.
Qed.

Lemma load_global_ordinary (name : string) : ordinary (load_global name).
Proof.
  intros e. unfold load_global.
  destruct (Dict.get module_globals name); [discriminate|].
  intros He. injection He as <-. reflexivity.
Qed.

Ltac tame_step :=
  lazymatch goal with
  | |- tame (ret _) => apply tame_ret
  | |- tame (raise _) => apply tame_raise; reflexivity
  | |- tame (gets _) => apply tame_gets
  | |- tame (print _) => apply tame_print
  | |- tame node_call => apply tame_node_call
  | |- tame (modify _) => apply tame_modify; intros; reflexivity
  | |- tame (lift (fromWei _)) => apply tame_lift; apply fromWei_ordinary
  | |- tame (lift (load_global _)) =>
      apply tame_lift; apply load_global_ordinary
  | |- tame (bind _ _) => apply tame_bind; [|intros]
  | |- tame (if ?b then _ else _) => destruct b
  end.

Ltac tame := repeat tame_step.

Lemma authorize_issuer_tame (E : Externals) (self : HealthPass)
    (issuer_name : string) (issuer_account : Account) :
  tame (authorize_issuer self issuer_name issuer_account).
Proof.
  unfold authorize_issuer, transact, waitForTransactionReceipt,
    calculate_transaction_cost. tame.
Qed.

Lemma initialize_contract_tame (E : Externals) (self : HealthPass)
    (force_compile : bool) (contract_address : string) :
  tame (initialize_contract self force_compile contract_address).
Proof.
  unfold initialize_contract, load_interface, compile_contract,
    deploy_contract, attach_contract, transact, waitForTransactionReceipt,
    calculate_transaction_cost.
  tame.
Qed.

Lemma create_health_passport_bind_tame (E : Externals) {B}
    (self : HealthPass) (health_dict : Dict.t string)
    (issuer_account passport_account : Account) (k : unit -> M B) :
  tame (bind (create_health_passport self health_dict issuer_account
                                     passport_account) k).
Proof.
  intros w Hw. split; [|exact Hw].
  intros e He. injection He as <-. reflexivity.
Qed.

(** On a benign node the guarded block raises nothing that its handler
    lets through. *)
Lemma guarded_block_tame (E : Externals) (cfg : Config)
    (issuer_account passport_account : Account) :
  tame (guarded_block cfg issuer_account passport_account).
Proof.
  unfold guarded_block.
  apply tame_bind; [apply initialize_contract_tame|intros].
  apply tame_bind; [apply tame_print|intros].
  apply tame_bind; [apply authorize_issuer_tame|intros].
  apply tame_bind; [apply tame_ret|intros].
  apply tame_bind; [apply initialize_contract_tame|intros].
  apply create_health_passport_bind_tame.
Qed.

Lemma prelude_keeps_faults (E : Externals) (cfg : Config) :
  keeps faults (prelude cfg).
Proof.
  unfold prelude, initialize_web3, get_account_balance, get_balance,
    create_new_account, transfer_eth, send_transaction.
  frame.
Qed.

(** The fund movements requested in a run that reaches the guarded block
    and leaves it by returning or by an ordinary exception. *)
Lemma main_invoked (E : Externals) (cfg : Config) (w w1 w2 : World)
    (owner issuer passport : Account) (recover_eth : bool)
    (r : result unit) :
  prelude cfg w = (Return (owner, issuer, passport, recover_eth), w1) ->
  guarded_block cfg issuer passport w1 = (r, w2) ->
  ordinary r ->
  invoked (snd (main cfg w)) = invoked w ++
    (if recover_eth
     then [Seed (address owner) (address issuer);
           Recover (address issuer) (address owner)]
     else []).
Proof.
  intros Hprelude Hblock Hexc.
  destruct (prelude_outcome E cfg w w1 owner issuer passport recover_eth
              Hprelude) as (_ & Hinv1 & _).
  assert (Hinv2 : invoked w2 = invoked w1)
    by exact (keeps_run invoked Hblock (guarded_block_keeps_invoked E _ _ _)).
  unfold main. unfold bind at 1. rewrite Hprelude.
  unfold guarded_then_recover. unfold bind at 1.
  unfold try_except_Exception. rewrite Hblock.
  destruct r as [[]|e].
  - rewrite recovery_tail, Hinv2, Hinv1.
    destruct recover_eth; rewrite <- app_assoc; reflexivity.
  - rewrite (Hexc e eq_refl).
    cbn [print modify].
    rewrite recovery_tail. cbn [invoked with_stdout].
    rewrite Hinv2, Hinv1.
    destruct recover_eth; rewrite <- app_assoc; reflexivity.
Qed.

(** X14. On a node whose failures are exceptions that derive from
    [Exception], every run that sets up the accounts requests the recovery
    once, after the funding, if it funded the issuer, and not at all
    otherwise. *)
Lemma main_invoked_on_benign_node (E : Externals) (cfg : Config)
    (w w1 : World) (owner issuer passport : Account) (recover_eth : bool) :
  benign w ->
  prelude cfg w = (Return (owner, issuer, passport, recover_eth), w1) ->
  invoked (snd (main cfg w)) = invoked w ++
    (if recover_eth
     then [Seed (address owner) (address issuer);
           Recover (address issuer) (address owner)]
     else []).
Proof.
  intros Hbenign Hprelude.
  assert (Hbenign1 : benign w1).
  { unfold benign.
    rewrite (keeps_run faults Hprelude (prelude_keeps_faults E cfg)).
    exact Hbenign. }
  destruct (guarded_block cfg issuer passport w1) as [r w2] eqn:Hblock.
  apply (main_invoked E cfg w w1 w2 owner issuer passport recover_eth r
           Hprelude Hblock).
  pose proof (guarded_block_tame E cfg issuer passport w1 Hbenign1) as [Hr _].
  rewrite Hblock in Hr. exact Hr.
Qed.

(** C6, as the code has it.  Take a run in which the accounts are set up
    and the guarded block is reached, and in which the block returns or
    raises an exception that derives from [Exception].  The issuer is
    funded exactly when no issuer key is configured.  If it is funded, the
    recovery is requested once, after the block and after the funding; if
    it is not, no recovery is requested. *)
Theorem recovery_follows_seeding (E : Externals) (cfg : Config)
    (w w1 w2 : World) (owner issuer passport : Account) (recover_eth : bool)
    (r : result unit) :
  prelude cfg w = (Return (owner, issuer, passport, recover_eth), w1) ->
  guarded_block cfg issuer passport w1 = (r, w2) ->
  ordinary r ->
  (recover_eth = true <-> ISSUER_PRIVATE_KEY cfg = "") /\
  sent w1 = sent w ++
    (if recover_eth then [seed_transaction w owner issuer] else []) /\
  invoked w2 = invoked w ++
    (if recover_eth then [Seed (address owner) (address issuer)] else []) /\
  invoked (snd (main cfg w)) = invoked w ++
    (if recover_eth
     then [Seed (address owner) (address issuer);
           Recover (address issuer) (address owner)]
     else []) /\
  seedings (snd (main cfg w))
  = (seedings w + (if recover_eth then 1 else 0))%nat /\
  recoveries (snd (main cfg w))
  = (recoveries w + (if recover_eth then 1 else 0))%nat.
Proof.
  intros Hprelude Hblock Hexc.
  destruct (prelude_outcome E cfg w w1 owner issuer passport recover_eth
              Hprelude) as (Hflag & Hinv1 & Hsent1).
  pose proof (main_invoked E cfg w w1 w2 owner issuer passport recover_eth r
                Hprelude Hblock Hexc) as Hfinal.
  split.
  { rewrite Hflag. split; intros H; apply String.eqb_eq; exact H. }
  split; [exact Hsent1|].
  split.
  { rewrite (keeps_run invoked Hblock (guarded_block_keeps_invoked E _ _ _)).
    exact Hinv1. }
  split; [exact Hfinal|].
  unfold seedings, recoveries. rewrite Hfinal, !List.filter_app, !length_app.
  destruct recover_eth; split; reflexivity.
Qed.

Lemma recovery_follows_seeding_witness :
  (invoked (snd (@main Sample.externals Sample.config Sample.quiet))
   = [Seed (@address Sample.externals Sample.alice)
           (Sample.address_of_key (Sample.fresh_key 0));
      Recover (Sample.address_of_key (Sample.fresh_key 0))
              (@address Sample.externals Sample.alice)] /\
   recoveries (snd (@main Sample.externals Sample.config Sample.quiet))
   = 1%nat) /\
  (invoked (snd (@main Sample.externals Sample.config_with_issuer
                   Sample.quiet)) = [] /\
   recoveries (snd (@main Sample.externals Sample.config_with_issuer
                      Sample.quiet)) = 0%nat).
Proof.
  split.
  - destruct (recovery_follows_seeding Sample.externals Sample.config
                Sample.quiet
                (snd (@prelude Sample.externals Sample.config Sample.quiet))
                (snd (@guarded_block Sample.externals Sample.config
                        {| privateKey := Sample.fresh_key 0 |}
                        {| privateKey := Sample.fresh_key 1 |}
                        (snd (@prelude Sample.externals Sample.config
                                Sample.quiet))))
                Sample.alice
                {| privateKey := Sample.fresh_key 0 |}
                {| privateKey := Sample.fresh_key 1 |}
                true
                (Raise (NameError "allow_only_signed")))
      as (_ & _ & _ & Hinvoked & _ & Hrecoveries).
    + vm_compute. reflexivity.
    + vm_compute. reflexivity.
    + intros e He. injection He as <-. reflexivity.
    + split; [exact Hinvoked | exact Hrecoveries].
  - destruct (recovery_follows_seeding Sample.externals
                Sample.config_with_issuer Sample.quiet
                (snd (@prelude Sample.externals Sample.config_with_issuer
                        Sample.quiet))
                (snd (@guarded_block Sample.externals
                        Sample.config_with_issuer
                        Sample.bob
                        {| privateKey := Sample.fresh_key 0 |}
                        (snd (@prelude Sample.externals
                                Sample.config_with_issuer Sample.quiet))))
                Sample.alice
                Sample.bob
                {| privateKey := Sample.fresh_key 0 |}
                false
                (Raise (NameError "allow_only_signed")))
      as (_ & _ & _ & Hinvoked & _ & Hrecoveries).
    + vm_compute. reflexivity.
    + vm_compute. reflexivity.
    + intros e He. injection He as <-. reflexivity.
    + split; [exact Hinvoked | exact Hrecoveries].
Defined.

(** C6, as stated, fails on two runs in which the issuer is funded and no
    recovery is requested: one where the configured passport key is no
    hexadecimal text, so that the script stops between the funding and the
    guarded block, and one where the guarded block is left by
    [KeyboardInterrupt], which the handler for [Exception] lets through. *)
Lemma seeded_without_recovery :
  (fst (@main Sample.externals Sample.config_bad_passport_key Sample.quiet)
   = Raise (ValueError "Non-hexadecimal digit found") /\
   seedings (snd (@main Sample.externals Sample.config_bad_passport_key
                    Sample.quiet)) = 1%nat /\
   recoveries (snd (@main Sample.externals Sample.config_bad_passport_key
                      Sample.quiet)) = 0%nat) /\
  (fst (@main Sample.externals Sample.config Sample.interrupted)
   = Raise KeyboardInterrupt /\
   seedings (snd (@main Sample.externals Sample.config Sample.interrupted))
   = 1%nat /\
   recoveries (snd (@main Sample.externals Sample.config Sample.interrupted))
   = 0%nat).
Proof. repeat split; vm_compute; reflexivity. Qed.

(** ** Further properties of signing and validation *)

(** What [validate_signature] makes of a signature that [sign_data] made
    with a valid key. *)
Lemma signature_verifies (E : Externals) (data : string) (account : Account) :
  recovers_signer E -> valid_account account ->
  validate_signature data (sign_data data account) (address account)
  = Return true.
Proof.
  intros Hlaw [Hlen Hrange].
  unfold validate_signature, sign_data, recover_message.
  rewrite hexstr_to_bytes_hex. cbn [rbind].
  rewrite (Hlaw _ _ Hlen Hrange). cbn [rbind].
  unfold address. rewrite String.eqb_refl. reflexivity.
Qed.

Lemma Dict_get_in {V} (d : Dict.t V) (key : string) (v : V) :
  NoDup (Dict.keys d) -> In (key, v) d -> Dict.get d key = Return v.
Proof.
  induction d as [|[k v'] d IH]; intros Hnodup Hin; [destruct Hin|].
  cbn [Dict.keys map fst] in Hnodup. apply NoDup_cons in Hnodup.
  destruct Hnodup as [Hfresh Hnodup].
  cbn [Dict.get]. destruct Hin as [Heq|Hin].
  - injection Heq as -> ->. rewrite String.eqb_refl. reflexivity.
  - destruct (String.eqb_spec k key) as [->|_].
    + exfalso. apply Hfresh. apply list_elem_of_In.
      apply (in_map fst) in Hin. exact Hin.
    + apply IH; assumption.
Qed.

Lemma keys_sign_items (E : Externals) (d : Dict.t string)
    (account : Account) :
  Dict.keys (sign_items d account) = Dict.keys d.
Proof.
  unfold sign_items, Dict.keys. rewrite map_map. reflexivity.
Qed.

Lemma sign_items_verify (E : Externals) (d : Dict.t string)
    (account : Account) :
  recovers_signer E -> valid_account account -> NoDup (Dict.keys d) ->
  Forall (verifies d (address account)) (sign_items d account).
Proof.
  intros Hlaw Hvalid Hnodup.
  unfold sign_items. apply List.Forall_forall. intros entry Hentry.
  apply in_map_iff in Hentry as ([key data] & <- & Hin). cbn [fst snd].
  exists data. split.
  - apply Dict_get_in; assumption.
  - apply signature_verifies; assumption.
Qed.

(** X1. A record that [sign_items] signed, as the two creating methods do
    before they write, validates against its own plain text and the address
    of the signing account: the field names are kept in their order, the
    result of [validate_data_dict] is [True] and nothing is printed. *)
Theorem signed_record_validates (E : Externals) (d : Dict.t string)
    (account : Account) (w : World) :
  recovers_signer E -> valid_account account -> NoDup (Dict.keys d) ->
  Dict.keys (sign_items d account) = Dict.keys d /\
  validate_data_dict d (sign_items d account) (address account) w
  = (Return true, w).
Proof.
  intros Hlaw Hvalid Hnodup. split; [apply keys_sign_items|].
  rewrite <- (app_nil_r (sign_items d account)).
  rewrite validate_data_dict_skip; [reflexivity|].
  apply sign_items_verify; assumption.
Qed.

Ltac settle_nodup :=
  cbn [Dict.keys map fst];
  repeat (apply NoDup_cons; split;
          [ intros Hin; apply list_elem_of_In in Hin; cbn in Hin;
            intuition discriminate | ]);
  apply NoDup_nil; exact I.

Lemma signed_record_validates_witness :
  @validate_data_dict Sample.externals health_data
     (@sign_items Sample.externals health_data Sample.alice)
     (@address Sample.externals Sample.alice) Sample.quiet
  = (Return true, Sample.quiet).
Proof.
  apply (signed_record_validates Sample.externals health_data Sample.alice
           Sample.quiet).
  - exact sample_recovers_signer.
  - split; reflexivity.
  - unfold health_data. settle_nodup.
Defined.

(** X2. The result of [validate_data_dict] depends on the plain text only
    through the fields that the signature dictionary names: two plain texts
    that agree on those fields validate alike, so a plain-text field
    without a signature is never looked at. *)
Theorem validate_data_dict_reads_signed_fields_only (E : Externals)
    (plaintext_dict other_dict signature_dict : Dict.t string)
    (signer_address : string) (w : World) :
  (forall key, In key (Dict.keys signature_dict) ->
     Dict.get plaintext_dict key = Dict.get other_dict key) ->
  validate_data_dict plaintext_dict signature_dict signer_address w
  = validate_data_dict other_dict signature_dict signer_address w.
Proof.
  induction signature_dict as [|[key sig] rest IH]; intros Hagree;
    [reflexivity|].
  rewrite !validate_data_dict_cons.
  rewrite <- (Hagree key) by (left; reflexivity).
  destruct (Dict.get plaintext_dict key) as [data|e]; [|reflexivity].
  destruct (validate_signature data sig signer_address) as [[|]|e];
    [|reflexivity|reflexivity].
  apply IH. intros k Hk. apply Hagree. right. exact Hk.
Qed.

Lemma validate_data_dict_reads_signed_fields_only_witness :
  @validate_data_dict Sample.externals
     [("First Name", "John"); ("Blood Type", "A")]
     [("First Name", Sample.signature_of "John")]
     (@address Sample.externals Sample.alice) Sample.quiet
  = @validate_data_dict Sample.externals
     [("First Name", "John"); ("Blood Type", "B")]
     [("First Name", Sample.signature_of "John")]
     (@address Sample.externals Sample.alice) Sample.quiet.
Proof.
  apply (validate_data_dict_reads_signed_fields_only Sample.externals).
  intros key [<-|[]]. reflexivity.
Defined.

(** X3. [validate_data_dict] returns [True] exactly when every entry of the
    signature dictionary names a field of the plain text and carries a
    signature that verifies for it. *)
Theorem validate_data_dict_true_iff (E : Externals)
    (plaintext_dict signature_dict : Dict.t string) (signer_address : string)
    (w : World) :
  fst (validate_data_dict plaintext_dict signature_dict signer_address w)
  = Return true <->
  Forall (verifies plaintext_dict signer_address) signature_dict.
Proof.
  split.
  - induction signature_dict as [|[key sig] rest IH]; intros Htrue;
      [constructor|].
    rewrite validate_data_dict_cons in Htrue.
    destruct (Dict.get plaintext_dict key) as [data|e] eqn:Hget;
      [|discriminate Htrue].
    destruct (validate_signature data sig signer_address) as [[|]|e] eqn:Hval;
      [|discriminate Htrue|discriminate Htrue].
    constructor; [|apply IH; exact Htrue].
    exists data. split; assumption.
  - intros Hall. rewrite <- (app_nil_r signature_dict).
    rewrite validate_data_dict_skip by exact Hall. reflexivity.
Qed.

(** X4. [validate_data_dict] returns [False] only at an entry that does not
    verify, all entries before it having verified, and then the world
    differs from the one before by the one warning line for that field; in
    every other case, returning [True] or raising, it leaves the world as
    it was. *)
Theorem validate_data_dict_false_at_mismatch (E : Externals)
    (plaintext_dict signature_dict : Dict.t string) (signer_address : string)
    (w : World) :
  (fst (validate_data_dict plaintext_dict signature_dict signer_address w)
   = Return false ->
   exists before key data_signature after,
     signature_dict = before ++ (key, data_signature) :: after /\
     Forall (verifies plaintext_dict signer_address) before /\
     mismatches plaintext_dict signer_address (key, data_signature) /\
     snd (validate_data_dict plaintext_dict signature_dict signer_address w)
     = with_stdout (fun out => out ++ [mismatch_warning key]) w) /\
  (fst (validate_data_dict plaintext_dict signature_dict signer_address w)
   <> Return false ->
   snd (validate_data_dict plaintext_dict signature_dict signer_address w)
   = w).
Proof.
  induction signature_dict as [|[key sig] rest [IHfalse IHother]].
  { split; [discriminate|reflexivity]. }
  rewrite validate_data_dict_cons.
  destruct (Dict.get plaintext_dict key) as [data|e] eqn:Hget;
    [|split; [discriminate|reflexivity]].
  destruct (validate_signature data sig signer_address) as [[|]|e] eqn:Hval.
  - split; [|exact IHother].
    intros Hfalse.
    destruct (IHfalse Hfalse) as (before & k & s & after & -> & Hall & Hmis & Hw).
    exists ((key, sig) :: before), k, s, after.
    split; [reflexivity|]. split; [|split; assumption].
    constructor; [|exact Hall]. exists data. split; assumption.
  - split; [|intros Hne; contradiction Hne; reflexivity].
    intros _. exists [], key, sig, rest.
    split; [reflexivity|]. split; [constructor|].
    split; [|reflexivity]. exists data. split; assumption.
  - split; [discriminate|reflexivity].
Qed.

(** ** Further properties of the writing methods *)

Lemma transact_answered (E : Externals) (call : ContractCall) (w : World) :
  node_answers w ->
  exists tx_hash w1,
    transact call w = (Return tx_hash, w1) /\
    transacted w1 = transacted w ++ [call] /\
    sent w1 = sent w /\ stdout w1 = stdout w /\ invoked w1 = invoked w.
Proof.
  intros Hanswers. unfold transact, bind at 1, node_call.
  destruct (faults w) as [|[e|] rest] eqn:Hfaults.
  - eexists. eexists. split; [reflexivity|]. repeat split.
  - exfalso. exact (Hanswers e rest Hfaults).
  - eexists. eexists. split; [reflexivity|]. repeat split.
Qed.

Lemma transact_failed (E : Externals) (call : ContractCall) (w : World)
    (e : exn) (rest : list (option exn)) :
  faults w = Some e :: rest ->
  transact call w = (Raise e, with_faults (fun _ => rest) w).
Proof.
  intros Hfaults. unfold transact, bind at 1, node_call.
  rewrite Hfaults. reflexivity.
Qed.

(** What follows the submission in the writing methods appends nothing to
    the logs of transactions and contract calls. *)
Lemma confirmation_keeps (E : Externals) (self : HealthPass) {X}
    (f : World -> X) (url_line done_line : string) (tx_hash : list byte) :
  (forall g w, f (with_stdout g w) = f w) ->
  (forall g w, f (with_faults g w) = f w) ->
  keeps f
    (print url_line ;;
     let! tx_receipt := waitForTransactionReceipt tx_hash in
     print done_line ;;
     let! cost := calculate_transaction_cost tx_receipt in
     print ("Transaction Cost: " +:+ decimal_str cost +:+ " Eth")).
Proof.
  intros Hout Hfaults.
  assert (Hnode : keeps f node_call).
  { intros w. unfold node_call.
    destruct (faults w) as [|[e|] rest]; cbn [snd]; auto. }
  unfold waitForTransactionReceipt, calculate_transaction_cost.
  repeat first [ exact Hnode | frame_step ].
Qed.

Lemma authorize_issuer_run (E : Externals) (self : HealthPass)
    (issuer_name : string) (issuer_account : Account) (w : World) :
  authorize_issuer self issuer_name issuer_account w =
  match transact (authorizeIssuer issuer_name (address issuer_account))
          (with_stdout (fun out => out ++
             ["Authorizing " +:+ issuer_name +:+ " (" +:+
              address issuer_account +:+ ") as Issuer"]) w) with
  | (Return tx_hash, w1) =>
      (print ("Authorize Issuer transaction URL: " +:+ tx_url self tx_hash) ;;
       let! tx_receipt := waitForTransactionReceipt tx_hash in
       print (issuer_name +:+ " authorized!") ;;
       let! cost := calculate_transaction_cost tx_receipt in
       print ("Transaction Cost: " +:+ decimal_str cost +:+ " Eth")) w1
  | (Raise e, w1) => (Raise e, w1)
  end.
Proof. reflexivity. Qed.

(** X5. [authorize_issuer] hands no transfer to the node and transacts at
    most one contract call.  When the node answers the submission, the call
    [authorizeIssuer] with the name and the address of the account is on
    record, whether or not the confirmation that follows succeeds; when the
    node fails the submission, the exception is raised and no call is on
    record. *)
Theorem authorize_issuer_writes_once (E : Externals) (self : HealthPass)
    (issuer_name : string) (issuer_account : Account) (w : World) :
  sent (snd (authorize_issuer self issuer_name issuer_account w)) = sent w /\
  (node_answers w ->
   transacted (snd (authorize_issuer self issuer_name issuer_account w))
   = transacted w ++ [authorizeIssuer issuer_name (address issuer_account)]) /\
  (forall e rest, faults w = Some e :: rest ->
   fst (authorize_issuer self issuer_name issuer_account w) = Raise e /\
   transacted (snd (authorize_issuer self issuer_name issuer_account w))
   = transacted w).
Proof.
  rewrite authorize_issuer_run.
  set (w0 := with_stdout _ w).
  set (call := authorizeIssuer issuer_name (address issuer_account)).
  assert (Hfaults0 : faults w0 = faults w) by reflexivity.
  destruct (faults w) as [|[e|] rest] eqn:Hfaults.
  2: { rewrite (transact_failed E call w0 e rest Hfaults0).
       split; [reflexivity|]. split.
       - intros Hanswers. exfalso. exact (Hanswers e rest Hfaults).
       - intros e' rest' Heq. injection Heq as <- <-. split; reflexivity. }
  all: destruct (transact_answered E call w0) as (h & w1 & -> & Ht & Hs & _);
    [ intros e rest'; rewrite Hfaults0; discriminate | ];
    rewrite !(confirmation_keeps E self _ _ _ h) by reflexivity;
    (split; [exact Hs|]); (split; [intros _; exact Ht|]);
    intros e rest' Habs; discriminate Habs.
Qed.

Lemma create_credential_run (E : Externals) (self : HealthPass)
    (credential_dict : Dict.t string)
    (issuer_account passport_account : Account) (w : World) :
  create_credential self credential_dict issuer_account passport_account w =
  match transact
          (createCredential
             (json_dumps (json_of_signed
                            (sign_items credential_dict issuer_account)))
             (address passport_account) []) w with
  | (Return tx_hash, w1) =>
      (print ("Create Health Passport transaction URL: " +:+
              tx_url self tx_hash) ;;
       let! tx_receipt := waitForTransactionReceipt tx_hash in
       print ("Credential created for passport " +:+
              address passport_account +:+ "!") ;;
       let! cost := calculate_transaction_cost tx_receipt in
       print ("Transaction Cost: " +:+ decimal_str cost +:+ " Eth")) w1
  | (Raise e, w1) => (Raise e, w1)
  end.
Proof. reflexivity. Qed.

(** X6. [create_credential] hands no transfer to the node and transacts at
    most one contract call.  When the node answers the submission, the call
    [createCredential] is on record with three arguments: the JSON text of
    the record in which every value is replaced by its signature under the
    issuer's key, the address of the passport account, and the empty byte
    string; it stays on record when the confirmation that follows fails.
    When the node fails the submission, the exception is raised, nothing
    is printed and no call is on record. *)
Theorem create_credential_writes_once (E : Externals) (self : HealthPass)
    (credential_dict : Dict.t string)
    (issuer_account passport_account : Account) (w : World) :
  sent (snd (create_credential self credential_dict issuer_account
               passport_account w)) = sent w /\
  (node_answers w ->
   transacted (snd (create_credential self credential_dict issuer_account
                      passport_account w))
   = transacted w ++
     [createCredential
        (json_dumps (json_of_signed
                       (sign_items credential_dict issuer_account)))
        (address passport_account) []]) /\
  (forall e rest, faults w = Some e :: rest ->
   create_credential self credential_dict issuer_account passport_account w
   = (Raise e, with_faults (fun _ => rest) w)).
Proof.
  rewrite create_credential_run.
  set (call := createCredential _ _ _).
  destruct (faults w) as [|[e|] rest] eqn:Hfaults.
  2: { rewrite (transact_failed E call w e rest Hfaults).
       split; [reflexivity|]. split.
       - intros Hanswers. exfalso. exact (Hanswers e rest Hfaults).
       - intros e' rest' Heq. injection Heq as <- <-. reflexivity. }
  all: destruct (transact_answered E call w) as (h & w1 & -> & Ht & Hs & _);
    [ intros e rest'; rewrite Hfaults; discriminate | ];
    rewrite !(confirmation_keeps E self _ _ _ h) by reflexivity;
    (split; [exact Hs|]); (split; [intros _; exact Ht|]);
    intros e rest' Habs; discriminate Habs.
Qed.

(** ** Further properties of amounts and transfers *)

(** X7. On a node that answers, [calculate_transaction_cost] returns for a
    receipt whose cost in wei, the gas used times the gas price of the
    transaction, lies between 0 and 2^256 - 1, the amount in ether that
    converts back to exactly that cost; it sends and transacts nothing. *)
Theorem calculate_transaction_cost_exact (tx_receipt : Receipt)
    (w : World) :
  node_answers w ->
  0 <= gasUsed tx_receipt * gas_price_of w (transactionHash tx_receipt)
    <= MAX_WEI ->
  exists eth_cost w',
    calculate_transaction_cost tx_receipt w = (Return eth_cost, w') /\
    toWei eth_cost
    = Return (gasUsed tx_receipt
              * gas_price_of w (transactionHash tx_receipt)) /\
    sent w' = sent w /\ transacted w' = transacted w /\ stdout w' = stdout w.
Proof.
  intros Hanswers Hrange.
  destruct (toWei_fromWei _ Hrange) as (amount & Hfrom & Hto).
  unfold calculate_transaction_cost, bind at 1, node_call.
  destruct (faults w) as [|[e|] rest] eqn:Hfaults;
    [|exfalso; exact (Hanswers e rest Hfaults)|];
    unfold bind, gets, lift, ret; cbn [gas_price_of with_faults];
    rewrite Hfrom; exists amount; eexists;
    (split; [reflexivity|]); (split; [exact Hto|]); repeat split.
Qed.

Lemma calculate_transaction_cost_exact_witness :
  exists eth_cost w',
    calculate_transaction_cost
      {| transactionHash := []; gasUsed := 21000; contractAddress := "" |} settled
    = (Return eth_cost, w') /\
    toWei eth_cost = Return (21000 * 10 ^ 9).
Proof.
  destruct (calculate_transaction_cost_exact
              {| transactionHash := []; gasUsed := 21000; contractAddress := "" |} settled)
    as (eth_cost & w' & Hrun & Hwei & _).
  - intros e rest Hfaults. discriminate Hfaults.
  - vm_compute. split; discriminate.
  - exists eth_cost, w'. split; [exact Hrun | exact Hwei].
Defined.

(** X8. A balance that is not zero and does not cover the fee of 21000
    gas at the generated price is never sent, in whole or in part:
    [send_account_balance] raises [ValueError] and leaves the world as it
    was. *)
Theorem send_account_balance_below_fee (E : Externals) (self : HealthPass)
    (from_address to_address : string) (w : World) :
  balance_of w from_address <> 0 ->
  balance_of w from_address < 21000 * gas_price w ->
  send_account_balance self from_address to_address w
  = (Raise (ValueError "value must be between 1 and 2**256 - 1"), w).
Proof.
  intros Hnonzero Hbelow.
  unfold send_account_balance, get_balance, bind at 1, gets at 1.
  destruct (Z.eqb_spec (balance_of w from_address) 0) as [Heq|_];
    [contradiction|].
  unfold bind at 1, gets at 1. unfold bind at 1, lift at 1.
  unfold fromWei.
  destruct (Z.eqb_spec (balance_of w from_address - 21000 * gas_price w) 0)
    as [Heq|_]; [lia|].
  replace (balance_of w from_address - 21000 * gas_price w <? 0) with true
    by (symmetry; apply Z.ltb_lt; lia).
  reflexivity.
Qed.

Lemma send_account_balance_below_fee_witness :
  @send_account_balance Sample.externals Sample.self
     (@address Sample.externals Sample.bob)
     (@address Sample.externals Sample.alice) Sample.dust
  = (Raise (ValueError "value must be between 1 and 2**256 - 1"),
     Sample.dust).
Proof.
  apply (send_account_balance_below_fee Sample.externals Sample.self
           (@address Sample.externals Sample.bob)
           (@address Sample.externals Sample.alice) Sample.dust).
  - vm_compute. discriminate.
  - vm_compute. reflexivity.
Defined.

(** ** Further properties of reading records and keys *)

Lemma get_health_passport_run (E : Externals) (w : World)
    (passport_address : string) :
  get_health_passport passport_address w =
  match returnPassport w passport_address with
  | Raise e => (Raise e, w)
  | Return [] => (Raise (KeyError "healthJson"), w)
  | Return (payload :: others) =>
      match loads payload with
      | Return fields =>
          (Return (("healthJson", fields)
                   :: zip (tail HEALTH_PASSPORT_STRUCT) others), w)
      | Raise e => (Raise e, w)
      end
  end.
Proof.
  unfold get_health_passport.
  unfold bind at 1, lift at 1. cbn [load_global].
  unfold bind at 1. unfold bind at 1, gets at 1, lift at 1.
  destruct (returnPassport w passport_address) as [values|e]; [|reflexivity].
  destruct values as [|payload [|v1 [|v2 [|v3 [|v4 others]]]]];
    [reflexivity|..];
    unfold bind, lift, ret; cbn; destruct (loads payload); reflexivity.
Qed.

Lemma get_credential_run (E : Externals) (w : World)
    (credential_hash : value) :
  get_credential credential_hash w =
  match returnCredential w credential_hash with
  | Raise e => (Raise e, w)
  | Return [] => (Raise (KeyError "credentialJson"), w)
  | Return (payload :: others) =>
      match loads payload with
      | Return fields =>
          (Return (("credentialJson", fields)
                   :: zip (tail CREDENTIAL_STRUCT) others), w)
      | Raise e => (Raise e, w)
      end
  end.
Proof.
  unfold get_credential.
  unfold bind at 1, lift at 1. cbn [load_global].
  unfold bind at 1. unfold bind at 1, gets at 1, lift at 1.
  destruct (returnCredential w credential_hash) as [values|e]; [|reflexivity].
  destruct values as [|payload [|v1 [|v2 [|v3 others]]]];
    [reflexivity|..];
    unfold bind, lift, ret; cbn; destruct (loads payload); reflexivity.
Qed.

(** X9. [get_health_passport] and [get_credential] only read: the world
    is as before, whatever they return or raise.  When they return a
    record, the view returned a tuple that is not empty, the keys of the
    record are the leading keys of the structure, as many as the tuple has
    elements and all of them when it has more, so that elements beyond
    the structure are dropped, and the first value is the decoded first
    element. *)
Theorem records_read_a_prefix (E : Externals) (w : World) :
  (forall passport_address,
     snd (get_health_passport passport_address w) = w /\
     forall record,
       fst (get_health_passport passport_address w) = Return record ->
       exists payload others fields,
         returnPassport w passport_address = Return (payload :: others) /\
         loads payload = Return fields /\
         Dict.get record "healthJson" = Return fields /\
         Dict.keys record
         = take (S (List.length others)) HEALTH_PASSPORT_STRUCT) /\
  (forall credential_hash,
     snd (get_credential credential_hash w) = w /\
     forall record,
       fst (get_credential credential_hash w) = Return record ->
       exists payload others fields,
         returnCredential w credential_hash = Return (payload :: others) /\
         loads payload = Return fields /\
         Dict.get record "credentialJson" = Return fields /\
         Dict.keys record
         = take (S (List.length others)) CREDENTIAL_STRUCT).
Proof.
  split.
  - intros passport_address. rewrite get_health_passport_run.
    destruct (returnPassport w passport_address)
      as [[|payload others]|e];
      [split; [reflexivity|discriminate]| |split; [reflexivity|discriminate]].
    destruct (loads payload) as [fields|e] eqn:Hloads;
      [|split; [reflexivity|discriminate]].
    split; [reflexivity|]. intros record Hrecord. injection Hrecord as <-.
    exists payload, others, fields.
    split; [reflexivity|]. split; [exact Hloads|]. split; [reflexivity|].
    destruct others as [|v1 [|v2 [|v3 [|v4 others]]]];
      cbn; rewrite ?take_nil; reflexivity.
  - intros credential_hash. rewrite get_credential_run.
    destruct (returnCredential w credential_hash)
      as [[|payload others]|e];
      [split; [reflexivity|discriminate]| |split; [reflexivity|discriminate]].
    destruct (loads payload) as [fields|e] eqn:Hloads;
      [|split; [reflexivity|discriminate]].
    split; [reflexivity|]. intros record Hrecord. injection Hrecord as <-.
    exists payload, others, fields.
    split; [reflexivity|]. split; [exact Hloads|]. split; [reflexivity|].
    destruct others as [|v1 [|v2 [|v3 others]]];
      cbn; rewrite ?take_nil; reflexivity.
Qed.

Lemma hexlify_no_prefix (bs : list byte) :
  String.prefix "0x" (Hex.hexlify bs) = false.
Proof.
  destruct bs as [|b bs]; [reflexivity|].
  cbn [Hex.hexlify].
  assert (Hdigit : Ascii.eqb (Hex.digit (Byte.to_N b mod 16)) "x" = false)
    by (destruct b; vm_compute; reflexivity).
  cbn [String.prefix].
  destruct (ascii_dec "0" (Hex.digit (to_N b / 16))); [|reflexivity].
  destruct (ascii_dec "x" (Hex.digit (to_N b mod 16))) as [Heq|];
    [|reflexivity].
  rewrite <- Heq in Hdigit. discriminate Hdigit.
Qed.

Lemma hex_has_prefix (bs : list byte) :
  String.prefix "0x" (Hex.hex bs) = true.
Proof.
  unfold Hex.hex. cbn [String.prefix].
  destruct (ascii_dec "0" "0") as [_|Hne]; [|contradiction Hne; reflexivity].
  destruct (ascii_dec "x" "x") as [_|Hne]; [|contradiction Hne; reflexivity].
  destruct (Hex.hexlify bs); reflexivity.
Qed.

(** X10. [initialize_account] reads the hexadecimal text of a key with or
    without the prefix [0x] as the same bytes, and accepts it exactly when
    [privateKeyToAccount] accepts those bytes: the account then holds
    them as its key. *)
Theorem initialize_account_reads_key_text (E : Externals) (key : list byte) :
  initialize_account (Hex.hexlify key) = account_from_key key /\
  initialize_account (Hex.hex key) = account_from_key key.
Proof.
  unfold initialize_account. rewrite hexlify_no_prefix.
  change ("0x" +:+ Hex.hexlify key) with (Hex.hex key).
  rewrite hex_has_prefix.
  unfold privateKeyToAccount. rewrite hexstr_to_bytes_hex.
  split; reflexivity.
Qed.

(** ** Further properties of the script *)

Lemma adds_at_most_one_keeps {A X} (log : World -> list X)
    (kind : X -> Prop) (c : M A) :
  keeps log c -> adds_at_most_one log kind c.
Proof. intros Hc w. left. apply Hc. Qed.

Lemma adds_at_most_one_bind_l {A B X} (log : World -> list X)
    (kind : X -> Prop) (c : M A) (k : A -> M B) :
  keeps log c -> (forall a, adds_at_most_one log kind (k a)) ->
  adds_at_most_one log kind (bind c k).
Proof.
  intros Hc Hk w. unfold bind. specialize (Hc w).
  destruct (c w) as [[a|e] w']; cbn [snd] in *.
  - rewrite <- Hc. apply Hk.
  - left. exact Hc.
Qed.

Lemma adds_at_most_one_bind_r {A B X} (log : World -> list X)
    (kind : X -> Prop) (c : M A) (k : A -> M B) :
  adds_at_most_one log kind c -> (forall a, keeps log (k a)) ->
  adds_at_most_one log kind (bind c k).
Proof.
  intros Hc Hk w. unfold bind. specialize (Hc w).
  destruct (c w) as [[a|e] w']; cbn [snd] in *.
  - rewrite !Hk. exact Hc.
  - exact Hc.
Qed.

Lemma adds_at_most_one_modify {X} (log : World -> list X)
    (kind : X -> Prop) (g : World -> World) (x : X) :
  kind x -> (forall w, log (g w) = log w ++ [x]) ->
  adds_at_most_one log kind (modify g).
Proof. intros Hx Hg w. right. exists x. split; [exact Hx | apply Hg]. Qed.

(** Past the creation of the passport nothing runs. *)
Lemma create_health_passport_bind_keeps (E : Externals) {B X}
    (f : World -> X) (self : HealthPass) (health_dict : Dict.t string)
    (issuer_account passport_account : Account) (k : unit -> M B) :
  keeps f (bind (create_health_passport self health_dict issuer_account
                                        passport_account) k).
Proof. intros w. reflexivity. Qed.

(** Statements that append to a log entries of one kind only. *)

Lemma appends_only_keeps {A X} (log : World -> list X) (kind : X -> Prop)
    (c : M A) :
  keeps log c -> appends_only log kind c.
Proof.
  intros Hc w. exists []. rewrite app_nil_r. split; [apply Hc | constructor].
Qed.

Lemma appends_only_bind {A B X} (log : World -> list X) (kind : X -> Prop)
    (c : M A) (k : A -> M B) :
  appends_only log kind c -> (forall a, appends_only log kind (k a)) ->
  appends_only log kind (bind c k).
Proof.
  intros Hc Hk w. unfold bind. destruct (Hc w) as (first & Hfirst & Hkind).
  destruct (c w) as [[a|e] w']; cbn [snd] in *.
  - destruct (Hk a w') as (second & Hsecond & Hkind').
    exists (first ++ second). rewrite Hsecond, Hfirst, app_assoc.
    split; [reflexivity|]. apply Forall_app. split; assumption.
  - exists first. split; assumption.
Qed.

Lemma appends_only_try {A X} (log : World -> list X) (kind : X -> Prop)
    (body : M A) (handler : exn -> M A) :
  appends_only log kind body -> (forall e, keeps log (handler e)) ->
  appends_only log kind (try_except_Exception body handler).
Proof.
  intros Hb Hh w. unfold try_except_Exception. specialize (Hb w).
  destruct (body w) as [[a|e] w']; cbn [snd] in *; [exact Hb|].
  destruct (is_Exception e); cbn [snd]; [rewrite Hh|]; exact Hb.
Qed.

Lemma appends_only_modify {X} (log : World -> list X) (kind : X -> Prop)
    (g : World -> World) (x : X) :
  kind x -> (forall w, log (g w) = log w ++ [x]) ->
  appends_only log kind (modify g).
Proof.
  intros Hx Hg w. exists [x]. split; [apply Hg|].
  constructor; [exact Hx | constructor].
Qed.

Ltac appends_step :=
  lazymatch goal with
  | |- appends_only _ _ (bind _ _) => apply appends_only_bind; [|intros]
  | |- appends_only _ _ (if ?b then _ else _) => destruct b
  | |- appends_only _ _ (modify (with_transacted _)) =>
      eapply appends_only_modify; [|intros; reflexivity]
  | |- appends_only _ _ _ => apply appends_only_keeps; solve [frame]
  end.

Ltac appends := repeat appends_step.

(** Initializing the contract transacts nothing but deployments. *)
Lemma initialize_contract_appends (E : Externals) (self : HealthPass)
    (force_compile : bool) (contract_address : string) :
  appends_only transacted deploys_or_authorizes
    (initialize_contract self force_compile contract_address).
Proof.
  unfold initialize_contract, load_interface, compile_contract,
    deploy_contract, attach_contract, transact, waitForTransactionReceipt,
    calculate_transaction_cost.
  appends. all: left; reflexivity.
Qed.

Lemma authorize_issuer_appends (E : Externals) (self : HealthPass)
    (issuer_account : Account) :
  appends_only transacted deploys_or_authorizes
    (authorize_issuer self "Pat Walker Health Center" issuer_account).
Proof.
  unfold authorize_issuer, transact, waitForTransactionReceipt,
    calculate_transaction_cost.
  appends. all: right; eexists; reflexivity.
Qed.

Lemma guarded_block_appends (E : Externals) (cfg : Config)
    (issuer_account passport_account : Account) :
  appends_only transacted deploys_or_authorizes
    (guarded_block cfg issuer_account passport_account).
Proof.
  unfold guarded_block.
  apply appends_only_bind; [apply initialize_contract_appends|intros].
  apply appends_only_bind; [appends|intros].
  apply appends_only_bind; [apply authorize_issuer_appends|intros].
  apply appends_only_bind; [unfold initialize_web3; appends|intros].
  apply appends_only_bind; [apply initialize_contract_appends|intros].
  apply appends_only_keeps. apply create_health_passport_bind_keeps.
Qed.

Lemma recovery_keeps_transacted (E : Externals) (self : HealthPass)
    (from_address to_address : string) :
  keeps transacted (send_account_balance self from_address to_address).
Proof.
  unfold send_account_balance, get_balance, transfer_eth, send_transaction.
  frame.
Qed.

Lemma prelude_keeps_transacted (E : Externals) (cfg : Config) :
  keeps transacted (prelude cfg).
Proof.
  unfold prelude, initialize_web3, get_account_balance, get_balance,
    create_new_account, transfer_eth, send_transaction.
  frame.
Qed.

(** X11. When the configured owner key is no usable key, the script stops
    in its first step with the exception of [initialize_account]: it has
    printed one line, and nothing was sent, transacted or drawn.  The
    configuration as shipped, with an empty owner key, is such a case. *)
Theorem main_stops_on_unusable_owner_key (E : Externals) (cfg : Config)
    (w : World) (e : exn) :
  initialize_account (CONTRACT_OWNER_PRIVATE_KEY cfg) = Raise e ->
  main cfg w = (Raise e, with_stdout (fun out => out ++ ["starting!"]) w).
Proof.
  intros Hkey. unfold main, prelude.
  unfold bind at 1. unfold bind at 1, print at 1, modify at 1.
  unfold bind at 1, lift at 1. rewrite Hkey. reflexivity.
Qed.

Lemma main_stops_on_unusable_owner_key_witness :
  @main Sample.externals shipped_config Sample.funded
  = (Raise (ValueError "The private key must be exactly 32 bytes long"),
     with_stdout (fun out => out ++ ["starting!"]) Sample.funded).
Proof.
  apply (main_stops_on_unusable_owner_key Sample.externals shipped_config
           Sample.funded).
  reflexivity.
Defined.

(** X12. No run of the script transacts the creation of a passport or of
    a credential: whatever the configuration, the files and the node, the
    contract calls on record after the run are those on record before it,
    followed by calls each of which is a deployment of the contract or the
    call that authorizes the demo issuer. *)
Theorem main_creates_no_passport_or_credential (E : Externals)
    (cfg : Config) :
  appends_only transacted deploys_or_authorizes (main cfg).
Proof.
  unfold main.
  apply appends_only_bind;
    [apply appends_only_keeps; apply prelude_keeps_transacted|].
  intros [[[owner issuer] passport] recover_eth].
  unfold guarded_then_recover.
  apply appends_only_bind.
  - apply appends_only_try; [apply guarded_block_appends | intros; frame].
  - intros. apply appends_only_keeps.
    apply keeps_bind; [|intros; frame].
    destruct recover_eth; [|frame].
    apply keeps_bind; [frame | intros; apply recovery_keeps_transacted].
Qed.

Lemma prelude_seeds_at_most_once (E : Externals) (cfg : Config) :
  adds_at_most_one invoked seeds (prelude cfg).
Proof.
  unfold prelude, initialize_web3, get_account_balance, get_balance.
  apply adds_at_most_one_bind_l; [frame|intros].
  apply adds_at_most_one_bind_l; [frame|intros].
  apply adds_at_most_one_bind_l; [frame|intros].
  apply adds_at_most_one_bind_l; [frame|intros].
  apply adds_at_most_one_bind_l; [frame|intros].
  apply adds_at_most_one_bind_r.
  - destruct (String.eqb (ISSUER_PRIVATE_KEY cfg) "").
    + apply adds_at_most_one_bind_l; [frame|intros].
      apply adds_at_most_one_bind_l;
        [unfold create_new_account; frame|intros].
      apply adds_at_most_one_bind_l;
        [unfold transfer_eth, send_transaction; frame|intros].
      apply adds_at_most_one_bind_r; [|intros; frame].
      eapply adds_at_most_one_modify; [|intros; reflexivity].
      eexists. eexists. reflexivity.
    + apply adds_at_most_one_keeps. frame.
  - intros. apply keeps_bind; [|intros; frame].
    destruct (String.eqb (PASSPORT_PRIVATE_KEY cfg) "");
      unfold create_new_account; frame.
Qed.

(** X13. In every run of the script, whatever the configuration and the
    node, and whether the run ends or is cut short by an exception, the
    fund movements requested are none, or one funding, or one funding
    followed by one recovery from the funded account back to the funding
    one: recovery is never requested without a funding before it, and
    neither is requested twice. *)
Theorem recovery_only_after_seeding (E : Externals) (cfg : Config)
    (w : World) :
  exists requested,
    invoked (snd (main cfg w)) = invoked w ++ requested /\
    (requested = [] \/
     exists owner issuer,
       requested = [Seed owner issuer] \/
       requested = [Seed owner issuer; Recover issuer owner]).
Proof.
  destruct (prelude cfg w) as [[accounts|e] w1] eqn:Hprelude.
  - destruct accounts as [[[owner issuer] passport] recover_eth].
    destruct (prelude_outcome E cfg w w1 owner issuer passport recover_eth
                Hprelude) as (_ & Hinv1 & _).
    destruct (guarded_block cfg issuer passport w1) as [r w2] eqn:Hblock.
    assert (Hinv2 : invoked w2 = invoked w1)
      by exact (keeps_run invoked Hblock
                  (guarded_block_keeps_invoked E _ _ _)).
    unfold main. unfold bind at 1. rewrite Hprelude.
    unfold guarded_then_recover. unfold bind at 1.
    unfold try_except_Exception. rewrite Hblock.
    assert (Hrecovered : forall w', invoked w' = invoked w2 ->
      exists requested,
        invoked w' ++
          (if recover_eth
           then [Recover (address issuer) (address owner)] else [])
        = invoked w ++ requested /\
        (requested = [] \/
         exists owner issuer,
           requested = [Seed owner issuer] \/
           requested = [Seed owner issuer; Recover issuer owner])).
    { intros w' ->. rewrite Hinv2, Hinv1. destruct recover_eth.
      - eexists. split; [rewrite <- app_assoc; reflexivity|].
        right. eexists. eexists. right. reflexivity.
      - exists []. split; [rewrite !app_nil_r; reflexivity|].
        left. reflexivity. }
    destruct r as [[]|e].
    + rewrite recovery_tail. apply Hrecovered. reflexivity.
    + destruct (is_Exception e).
      * cbn [print modify]. rewrite recovery_tail.
        apply Hrecovered. reflexivity.
      * cbn [snd]. rewrite Hinv2, Hinv1. eexists. split; [reflexivity|].
        destruct recover_eth; [|left; reflexivity].
        right. eexists. eexists. left. reflexivity.
  - unfold main, bind. rewrite Hprelude. cbn [snd].
    destruct (prelude_seeds_at_most_once E cfg w) as [Hsame|(x & Hx & Hone)];
      rewrite Hprelude in *; cbn [snd] in *.
    + exists []. split; [rewrite app_nil_r; exact Hsame|]. left. reflexivity.
    + destruct Hx as (owner & issuer & ->).
      eexists. split; [exact Hone|]. right.
      exists owner, issuer. left. reflexivity.
Qed.

Lemma main_invoked_on_benign_node_witness :
  invoked (snd (@main Sample.externals Sample.config Sample.quiet))
  = [Seed (@address Sample.externals Sample.alice)
          (Sample.address_of_key (Sample.fresh_key 0));
     Recover (Sample.address_of_key (Sample.fresh_key 0))
             (@address Sample.externals Sample.alice)].
Proof.
  apply (main_invoked_on_benign_node Sample.externals Sample.config
           Sample.quiet
           (snd (@prelude Sample.externals Sample.config Sample.quiet))
           Sample.alice
           {| privateKey := Sample.fresh_key 0 |}
           {| privateKey := Sample.fresh_key 1 |}
           true).
  - constructor.
  - vm_compute. reflexivity.
Defined.

(** ** What the verifier reads back *)

Lemma signature_dict_of_signed (hashed_dict : Dict.t string) :
  signature_dict_of (json_of_signed hashed_dict) = Return hashed_dict.
Proof.
  unfold signature_dict_of, json_of_signed.
  induction hashed_dict as [|[key signature] rest IH]; [reflexivity|].
  cbn [map fst snd signature_items]. rewrite IH. reflexivity.
Qed.

(** X16. What the verifier reads back validates: when the view returns for
    a passport, or for a credential, a tuple whose first element decodes to
    the record that [sign_items] made of a plain text under the key of an
    issuer, and whose second element is the address of that issuer, then
    reading the record and validating the plain text against it returns
    [True], and nothing is printed or written. *)
Theorem records_read_back_validate (E : Externals) (issuer : Account)
    (w : World) :
  recovers_signer E -> valid_account issuer ->
  (forall (d : Dict.t string) (passport_address payload : string)
          (allowOnlySigned credentialRefs isActive : value),
     NoDup (Dict.keys d) ->
     returnPassport w passport_address
     = Return [VStr payload; VStr (address issuer); allowOnlySigned;
               credentialRefs; isActive] ->
     json_loads payload = Return (json_of_signed (sign_items d issuer)) ->
     read_and_validate_passport d passport_address w = (Return true, w)) /\
  (forall (d : Dict.t string) (credential_hash : value) (payload : string)
          (passportRef isValid : value),
     NoDup (Dict.keys d) ->
     returnCredential w credential_hash
     = Return [VStr payload; VStr (address issuer); passportRef; isValid] ->
     json_loads payload = Return (json_of_signed (sign_items d issuer)) ->
     read_and_validate_credential d credential_hash w = (Return true, w)).
Proof.
  intros Hlaw Hvalid. split.
  - intros d passport_address payload a c act Hnodup Hview Hjson.
    unfold read_and_validate_passport. unfold bind at 1.
    rewrite (get_health_passport_pairs E w _ payload _ Hview), Hjson.
    unfold bind at 1, lift at 1.
    change (Dict.get _ "healthJson")
      with (Return (A := value) (json_of_signed (sign_items d issuer))).
    unfold bind at 1, lift at 1.
    change (Dict.get _ "issuerAddress")
      with (Return (A := value) (VStr (address issuer))).
    unfold bind at 1, lift at 1.
    rewrite signature_dict_of_signed. cbn [address_text].
    rewrite <- (app_nil_r (sign_items d issuer)).
    rewrite validate_data_dict_skip; [reflexivity|].
    apply sign_items_verify; assumption.
  - intros d credential_hash payload p v Hnodup Hview Hjson.
    unfold read_and_validate_credential. unfold bind at 1.
    rewrite (get_credential_pairs E w _ payload _ Hview), Hjson.
    unfold bind at 1, lift at 1.
    change (Dict.get _ "credentialJson")
      with (Return (A := value) (json_of_signed (sign_items d issuer))).
    unfold bind at 1, lift at 1.
    change (Dict.get _ "issuerAddress")
      with (Return (A := value) (VStr (address issuer))).
    unfold bind at 1, lift at 1.
    rewrite signature_dict_of_signed. cbn [address_text].
    rewrite <- (app_nil_r (sign_items d issuer)).
    rewrite validate_data_dict_skip; [reflexivity|].
    apply sign_items_verify; assumption.
Qed.

Lemma flat_recovers_signer : recovers_signer Flat.externals.
Proof. exact sample_recovers_signer. Qed.

Lemma records_read_back_validate_witness :
  @read_and_validate_passport Flat.externals health_data
     (@address Flat.externals Sample.bob) Flat.ledger
  = (Return true, Flat.ledger) /\
  @read_and_validate_credential Flat.externals credential_data
     (VBytes (Sample.key "c"%byte)) Flat.ledger
  = (Return true, Flat.ledger).
Proof.
  destruct (records_read_back_validate Flat.externals Sample.alice
              Flat.ledger flat_recovers_signer)
    as [Hpassport Hcredential]; [split; reflexivity|].
  split.
  - apply (Hpassport health_data _ (Flat.payload health_data)
             (VBool false) (VList [VBytes (Sample.key "c"%byte)])
             (VBool true)).
    + unfold health_data. settle_nodup.
    + reflexivity.
    + vm_compute. reflexivity.
  - apply (Hcredential credential_data _ (Flat.payload credential_data)
             (VStr (Sample.address_of_key (Sample.key "b"%byte)))
             (VBool true)).
    + unfold credential_data. settle_nodup.
    + reflexivity.
    + vm_compute. reflexivity.
Defined.
